(** * EcoWise front end: image codec, upload transport and response normalizer

    A shallow embedding of the analysis pipeline of the two page scripts
    [frontend/script.js] and [frontend/analyze.js]:

    - [normalizeResponse] (script.js) turns a backend payload into the shape
      the renderer reads;
    - [maybeCompress] (script.js) and [compressImage] (analyze.js) shrink an
      image on a canvas by lowering the JPEG quality;
    - [uploadWithProgress] (script.js) and [uploadFileWithProgress]
      (analyze.js) settle a promise from the events of one XMLHttpRequest;
    - [analyzeImage] (script.js) and [analyzeClick] (analyze.js) chain the
      three.

    JavaScript values are modelled as a JSON-like inductive type whose numbers
    are IEEE-754 doubles (Rocq's primitive floats), so [0.92 - 0.07] and
    [Math.round (h * (maxW / w))] are evaluated exactly as the engine does.
    The browser (bitmap decoding, canvas encoding) and three functions of the
    language runtime (number to string, string to number, [JSON.parse]) are
    interfaces: every statement about the scripts holds for all their
    implementations. An asynchronous function is modelled by its completion:
    the value it resolves with or the error it rejects with. *)

From Stdlib Require Import ZArith Floats String Ascii List Bool Lia.
From Stdlib Require Import DecimalString.
Import ListNotations.

Set Implicit Arguments.
Set Warnings "-inexact-float".
Local Open Scope string_scope.

(** ** JavaScript values *)

Unset Elimination Schemes.
Inductive JsVal : Type :=
| JUndefined
| JNull
| JBool (b : bool)
| JNum (n : float)
| JStr (s : string)
| JArr (elems : list JsVal)
| JObj (props : list (string * JsVal)).
Set Elimination Schemes.

(** The parts of the language runtime that the scripts reach only through
    coercions: [Number::toString], [StringToNumber] and [JSON.parse]
    ([None] when it throws a SyntaxError). *)
Class JsRuntime : Type := {
  NumberToString : float -> string;
  StringToNumber : string -> float;
  JSON_parse : string -> option JsVal
}.

(** A thrown value. Only its [message] is ever read ([err.message]); the empty
    string stands for a thrown value without a usable message. *)
Record JsError : Type := Error { message : string }.

(** Completion of a call: a returned value or a thrown error. *)
Inductive Outcome (A : Type) : Type :=
| Returns (a : A)
| Throws (e : JsError).
Arguments Returns {A} a.
Arguments Throws {A} e.

Definition bind {A B : Type} (m : Outcome A) (k : A -> Outcome B) : Outcome B :=
  match m with
  | Returns a => k a
  | Throws e => Throws e
  end.

Notation "x <- m ;; k" := (bind m (fun x => k))
  (at level 61, m at next level, right associativity).

Fixpoint mapM {A B : Type} (f : A -> Outcome B) (l : list A) : Outcome (list B) :=
  match l with
  | [] => Returns []
  | a :: l' => b <- f a ;; bs <- mapM f l' ;; Returns (b :: bs)
  end.

(** [length] of an array as a JavaScript number. *)
Definition num_of_nat (n : nat) : float :=
  PrimFloat.of_uint63 (Uint63.of_Z (Z.of_nat n)).

(** ToBoolean: [undefined], [null], [false], [0], [-0], [NaN] and [''] are the
    falsy values. *)
Definition ToBoolean (v : JsVal) : bool :=
  match v with
  | JUndefined | JNull => false
  | JBool b => b
  | JNum n => negb (PrimFloat.eqb n 0 || PrimFloat.is_nan n)
  | JStr s => negb (s =? "")
  | JArr _ | JObj _ => true
  end.

(** [a || b] and [a && b] return one of their operands. *)
Definition jsOr (a b : JsVal) : JsVal := if ToBoolean a then a else b.
Definition jsAnd (a b : JsVal) : JsVal := if ToBoolean a then b else a.

(** [v !== undefined] *)
Definition isDefined (v : JsVal) : bool :=
  match v with JUndefined => false | _ => true end.

(** [Array.isArray(v)] *)
Definition isArray (v : JsVal) : bool :=
  match v with JArr _ => true | _ => false end.

Definition elements (v : JsVal) : list JsVal :=
  match v with JArr l => l | _ => [] end.

Fixpoint assoc (k : string) (props : list (string * JsVal)) : JsVal :=
  match props with
  | [] => JUndefined
  | (k', v) :: rest => if k =? k' then v else assoc k rest
  end.

Definition string_of_nat (n : nat) : string :=
  NilZero.string_of_uint (Nat.to_uint n).

(** The element whose canonical index string is [k], scanning from index [i]. *)
Fixpoint elemAt (k : string) (i : nat) (l : list JsVal) : JsVal :=
  match l with
  | [] => JUndefined
  | v :: rest => if k =? string_of_nat i then v else elemAt k (S i) rest
  end.

Fixpoint charAt (k : string) (i : nat) (s : string) : JsVal :=
  match s with
  | EmptyString => JUndefined
  | String c rest =>
      if k =? string_of_nat i then JStr (String c EmptyString) else charAt k (S i) rest
  end.

(** Property read [v.k] / [v[k]] on a value that is neither [null] nor
    [undefined] (every read in the scripts is guarded so). Own properties of
    objects, indices and [length] of arrays and strings; a missing property
    reads as [undefined]. An object keeps one binding per key, as JSON.parse
    builds it. Members inherited from a prototype are not values of
    [JsVal]; none of the fixed names the scripts read is one, so only the
    computed read [d.names[d.cls]] could reach them. *)
Definition get (v : JsVal) (k : string) : JsVal :=
  match v with
  | JObj props => assoc k props
  | JArr l => if k =? "length" then JNum (num_of_nat (List.length l)) else elemAt k 0 l
  | JStr s => if k =? "length" then JNum (num_of_nat (String.length s)) else charAt k 0 s
  | _ => JUndefined
  end.

Section Coercions.
Context {rt : JsRuntime}.

(** ToString, as [String(v)], a template literal or a computed property key
    applies it. An array joins its elements with commas, [null] and
    [undefined] elements printing as nothing. *)
Fixpoint ToString (v : JsVal) : string :=
  match v with
  | JUndefined => "undefined"
  | JNull => "null"
  | JBool true => "true"
  | JBool false => "false"
  | JNum n => NumberToString n
  | JStr s => s
  | JArr l =>
      (fix join (l : list JsVal) : string :=
         match l with
         | [] => ""
         | x :: rest =>
             let sx := match x with
                       | JUndefined | JNull => ""
                       | _ => ToString x
                       end in
             match rest with
             | [] => sx
             | _ :: _ => sx ++ "," ++ join rest
             end
         end) l
  | JObj _ => "[object Object]"
  end.

(** ToNumber, as [Number(v)] applies it; arrays and objects go through
    their string form. *)
Definition ToNumber (v : JsVal) : float :=
  match v with
  | JUndefined => PrimFloat.nan
  | JNull => 0%float
  | JBool true => 1%float
  | JBool false => 0%float
  | JNum n => n
  | JStr s => StringToNumber s
  | JArr _ | JObj _ => StringToNumber (ToString v)
  end.
End Coercions.

(** ** [String.prototype.trim]

    Strings are sequences of UTF-8 bytes. [trim] removes the WhiteSpace and
    LineTerminator code points of the language from both ends: TAB, LF, VT,
    FF, CR, SP, U+00A0, U+1680, U+2000..U+200A, U+2028, U+2029, U+202F, U+205F,
    U+3000 and U+FEFF. *)

Definition isWhiteSpace (t : list ascii) : bool :=
  match List.map nat_of_ascii t with
  | [a] => ((9 <=? a) && (a <=? 13) || (a =? 32))%nat
  | [a; b] => ((a =? 194) && (b =? 160))%nat
  | [a; b; c] =>
      ((a =? 225) && (b =? 154) && (c =? 128)
       || (a =? 226) && (b =? 128)
          && ((128 <=? c) && (c <=? 138) || (c =? 168) || (c =? 169) || (c =? 175))
       || (a =? 226) && (b =? 129) && (c =? 159)
       || (a =? 227) && (b =? 128) && (c =? 128)
       || (a =? 239) && (b =? 187) && (c =? 191))%nat
  | _ => false
  end.

(** One leading token accepted by [tok], of one, two or three bytes. *)
Definition strip (tok : list ascii -> bool) (l : list ascii) : option (list ascii) :=
  if tok (firstn 1 l) then Some (skipn 1 l)
  else if tok (firstn 2 l) then Some (skipn 2 l)
  else if tok (firstn 3 l) then Some (skipn 3 l)
  else None.

Fixpoint stripAll (tok : list ascii -> bool) (fuel : nat) (l : list ascii) : list ascii :=
  match fuel with
  | O => l
  | S fuel' =>
      match strip tok l with
      | Some rest => stripAll tok fuel' rest
      | None => l
      end
  end.

Definition trimStartBytes (l : list ascii) : list ascii :=
  stripAll isWhiteSpace (List.length l) l.

Definition trimEndBytes (l : list ascii) : list ascii :=
  rev (stripAll (fun t => isWhiteSpace (rev t)) (List.length l) (rev l)).

Definition trim (s : string) : string :=
  string_of_list_ascii (trimEndBytes (trimStartBytes (list_ascii_of_string s))).

(** ** script.js: [normalizeResponse] *)

Section Normalizer.
Context {rt : JsRuntime}.

(** [if (raw && raw.json && (raw.status || raw.res)) raw = raw.json;] *)
Definition unwrapEnvelope (raw : JsVal) : JsVal :=
  if ToBoolean
       (jsAnd raw (jsAnd (get raw "json") (jsOr (get raw "status") (get raw "res"))))
  then get raw "json"
  else raw.

(** The chain of [Array.isArray] tests that picks the detections. *)
Definition findDetected (raw : JsVal) : list JsVal :=
  if isArray (get raw "detected_objects") then elements (get raw "detected_objects")
  else if isArray (get raw "detected") then elements (get raw "detected")
  else if isArray (get raw "objects") then elements (get raw "objects")
  else if isArray (get raw "results") then elements (get raw "results")
  else if isArray (get raw "items") then elements (get raw "items")
  else if isArray raw then elements raw
  else [].

(** The callback of [detected.map]. Reading a property of a [null] or
    [undefined] element throws a TypeError (its text is the engine's). *)
Definition normalizeDetection (d : JsVal) : Outcome JsVal :=
  match d with
  | JUndefined | JNull => Throws (Error "Cannot read properties of null")
  | _ =>
      let name :=
        jsOr (jsOr (jsOr (jsOr (jsOr (jsOr (get d "name") (get d "label"))
                                     (get d "class"))
                               (get d "type"))
                         (get d "item"))
                   (jsAnd (get d "names") (get (get d "names") (ToString (get d "cls")))))
             (JStr "item") in
      let conf :=
        if isDefined (get d "conf") then get d "conf"
        else if isDefined (get d "confidence") then get d "confidence"
        else if isDefined (get d "score") then get d "score"
        else if isDefined (get d "probability") then get d "probability"
        else JNum 0 in
      let bbox := jsOr (jsOr (jsOr (get d "bbox") (get d "xyxy")) (get d "box")) JNull in
      Returns (JObj [("name", JStr (trim (ToString (jsOr name (JStr "")))));
                     ("conf", JNum (ToNumber (jsOr conf (JNum 0))));
                     ("bbox", bbox)])
  end.

(** The chain that picks the recommendations. *)
Definition findRecs (raw : JsVal) : list JsVal :=
  if isArray (get raw "recommendations") then elements (get raw "recommendations")
  else if isArray (get raw "recs") then elements (get raw "recs")
  else if isArray (get raw "recommend") then elements (get raw "recommend")
  else if ToBoolean (get raw "recommendation") then [get raw "recommendation"]
  else if ToBoolean (get raw "message") then [get raw "message"]
  else [].

(** [`${d.name} — Unknown: please consult local recycling rules`] *)
Definition genericRec (d : JsVal) : JsVal :=
  JStr (ToString (get d "name") ++ " — Unknown: please consult local recycling rules").

(** [if (!recs.length && detected.length) recs = detected.map(...)] *)
Definition fallbackRecs (recs detected : list JsVal) : list JsVal :=
  if (List.length recs =? 0)%nat && negb (List.length detected =? 0)%nat
  then List.map genericRec detected
  else recs.

Definition normalizeResponse (raw : JsVal) : Outcome JsVal :=
  if negb (ToBoolean raw) then
    Returns (JObj [("success", JBool false);
                   ("detected_objects", JArr []);
                   ("recommendations", JArr []);
                   ("eco_points", JNum 0);
                   ("carbon_saved_kg", JNum 0)])
  else
    let raw := unwrapEnvelope raw in
    detected <- mapM normalizeDetection (findDetected raw) ;;
    let recs := fallbackRecs (findRecs raw) detected in
    let eco_points :=
      if isDefined (get raw "eco_points") then get raw "eco_points"
      else jsOr (jsOr (get raw "points") (get raw "points_earned")) (JNum 0) in
    let carbon_saved_kg :=
      if isDefined (get raw "carbon_saved_kg") then get raw "carbon_saved_kg"
      else jsOr (get raw "carbon") (JNum 0) in
    let filename := jsOr (jsOr (get raw "filename") (get raw "file")) (JStr "") in
    Returns
      (JObj [("success",
              if isDefined (get raw "success") then get raw "success" else JBool true);
             ("detected_objects", JArr detected);
             ("recommendations", JArr recs);
             ("eco_points", eco_points);
             ("carbon_saved_kg", carbon_saved_kg);
             ("filename", filename);
             ("debug",
              jsOr (get raw "debug")
                   (JObj [("model_loaded", jsOr (get raw "model_loaded") (JBool false));
                          ("detections_count",
                           JNum (num_of_nat (List.length detected)))]))]).
End Normalizer.

(** ** Numbers of the codec *)

Definition float_of_Z (z : Z) : float :=
  if (z <? 0)%Z then PrimFloat.opp (PrimFloat.of_uint63 (Uint63.of_Z (- z)))
  else PrimFloat.of_uint63 (Uint63.of_Z z).

(** [Math.round]: the integer nearest to [x], ties towards +infinity; zeros,
    infinities, NaN and integral values are returned as they are, and values
    in [-0.5, 0) give [-0]. The value of a finite double is [m * 2^e]; the
    rounding is done on that exact value. *)
Definition Math_round (x : float) : float :=
  match Prim2SF x with
  | S754_finite s m e =>
      if (0 <=? e)%Z then x
      else
        let d := (2 ^ (- e))%Z in
        let v := if s then Z.neg m else Z.pos m in
        let r := ((2 * v + d) / (2 * d))%Z in
        if (r =? 0)%Z then (if s then PrimFloat.neg_zero else PrimFloat.zero)
        else float_of_Z r
  | _ => x
  end.

(** [if (w > maxW) { h = Math.round(h * (maxW / w)); w = maxW; }] *)
Definition fitWidth (maxW w h : float) : float * float :=
  if (maxW <? w)%float then (maxW, Math_round (h * (maxW / w))%float) else (w, h).

(** script.js *)
Definition MAX_IMAGE_SIZE : float := (8 * 1024 * 1024)%float.
Definition MAX_W : float := 1600%float.
Definition ALLOWED_TYPES : list string :=
  ["image/jpeg"; "image/png"; "image/webp"; "image/gif"].
(** analyze.js *)
Definition MAX_UPLOAD_BYTES : float := (12 * 1024 * 1024)%float.
Definition MAX_WIDTH : float := 1200%float.

(** ** The browser: blobs, bitmap decoding and canvas encoding

    Decoding a file and encoding the canvas are the steps that can fail;
    creating the canvas and drawing on it are taken to succeed. *)

Class Browser : Type := {
  (** [Blob] and [File] objects, with their [size] and [type] *)
  Blob : Type;
  size : Blob -> float;
  type : Blob -> string;
  (** [ImageBitmap]s (and the canvas the fallback decoder resolves with),
      with their [width] and [height] *)
  Bitmap : Type;
  width : Bitmap -> float;
  height : Bitmap -> float;
  (** [window.createImageBitmap] is present *)
  hasCreateImageBitmap : bool;
  (** [createImageBitmap(file)]: the bitmap, or the rejection *)
  createImageBitmap : Blob -> Outcome Bitmap;
  (** decoding through an [Image] element and a canvas: the decoded surface,
      or the rejection by [img.onerror] *)
  decodeViaImage : Blob -> Outcome Bitmap;
  (** [canvas.toBlob(cb, 'image/jpeg', quality)] on a canvas of [w] by [h]
      onto which the bitmap was drawn scaled: the blob handed to the
      callback, [None] for [null] *)
  toBlob : Bitmap -> float -> float -> float -> option Blob
}.

(** What a codec call does to the browser, in order. *)
Inductive CodecEvent : Type :=
| Decode
| Draw (w h : float)
| Encode (w h quality : float).

(** A finished call: its result and the events it caused. *)
Record Run (A : Type) : Type := mkRun { result : A; events : list CodecEvent }.

Definition qualityOf (e : CodecEvent) : list float :=
  match e with Encode _ _ q => [q] | _ => [] end.

(** The qualities of the [toBlob] calls of a run, in order. *)
Definition qualities (tr : list CodecEvent) : list float := flat_map qualityOf tr.

(** Iterations granted to the re-encoding loop; [reencode_fuel] shows that
    the loop never needs more than nine. *)
Definition loopFuel : nat := 16.

Section Codec.
Context {br : Browser}.

(** script.js [loadImageBitmap], analyze.js [createBitmap] *)
Definition loadImageBitmap (file : Blob) : Outcome Bitmap :=
  if hasCreateImageBitmap then createImageBitmap file else decodeViaImage file.

Definition createBitmap (file : Blob) : Outcome Bitmap :=
  if hasCreateImageBitmap then createImageBitmap file else decodeViaImage file.

(** [while (blob && blob.size > maxBytes && quality > 0.35)
       { quality -= 0.07; blob = await toBlob(quality); }]
    [None] when the iterations granted do not suffice. *)
Fixpoint reencode (fuel : nat) (maxBytes : float) (bitmap : Bitmap) (w h : float)
         (quality : float) (blob : option Blob) (tr : list CodecEvent)
  : option (Run (option Blob)) :=
  if match blob with
     | Some b => (maxBytes <? size b)%float && (0.35 <? quality)%float
     | None => false
     end
  then
    match fuel with
    | O => None
    | S fuel' =>
        let quality' := (quality - 0.07)%float in
        reencode fuel' maxBytes bitmap w h quality' (toBlob bitmap w h quality')
                 (tr ++ [Encode w h quality'])
    end
  else Some (mkRun blob tr).

(** [return blob || file] *)
Definition orFile (file : Blob) (r : Run (option Blob)) : Run Blob :=
  mkRun (match result r with Some b => b | None => file end) (events r).

(** analyze.js [compressImage(file, maxBytes, maxW)]: the whole body is in
    a [try] whose [catch] returns the file. *)
Definition compressImage (file : Blob) (maxBytes maxW : float) : option (Run Blob) :=
  match createBitmap file with
  | Throws _ => Some (mkRun file [Decode])
  | Returns bitmap =>
      let (w, h) := fitWidth maxW (width bitmap) (height bitmap) in
      let quality := 0.92%float in
      option_map (orFile file)
        (reencode loopFuel maxBytes bitmap w h quality (toBlob bitmap w h quality)
                  [Decode; Draw w h; Encode w h quality])
  end.

(** script.js [maybeCompress(file)] *)
Definition maybeCompress (file : option Blob) : option (Run (Outcome Blob)) :=
  match file with
  | None => Some (mkRun (Throws (Error "No file to upload")) [])
  | Some file =>
      if (size file <=? 1.5 * 1024 * 1024)%float then Some (mkRun (Returns file) [])
      else
        match loadImageBitmap file with
        | Throws e => Some (mkRun (Throws e) [Decode])
        | Returns img =>
            let (w, h) := fitWidth MAX_W (width img) (height img) in
            let quality := 0.9%float in
            option_map (fun r => mkRun (Returns (result (orFile file r))) (events r))
              (reencode loopFuel MAX_IMAGE_SIZE img w h quality (toBlob img w h quality)
                        [Decode; Draw w h; Encode w h quality])
        end
  end.
End Codec.

(** ** Upload transport *)

(** The event that ends one XMLHttpRequest, as the promise executor sees it:
    [onload] with [xhr.status], [xhr.response] (the parsed body, [null] when it
    is not JSON) and [xhr.responseText] ([None] when reading it throws, as it
    does for [responseType = 'json']); [onerror]; the abort timer firing
    first; or [xhr.send] throwing. *)
Inductive XhrEvent : Type :=
| XhrLoad (status : Z) (response : JsVal) (responseText : option string)
| XhrError
| XhrTimeout
| XhrSendThrows (e : JsError).

(** State of the promise once the event has been handled. An exception inside
    [onload] leaves the promise unsettled: the timer was cleared before. *)
Inductive Settled : Type :=
| Resolved (v : JsVal)
| Rejected (e : JsError)
| Pending.

Definition string_of_status (status : Z) : string :=
  NilZero.string_of_int (Z.to_int status).

Definition is2xx (status : Z) : bool := ((200 <=? status) && (status <? 300))%Z.

(** script.js [uploadWithProgress] *)
Definition uploadWithProgress (ev : XhrEvent) : Settled :=
  match ev with
  | XhrLoad status response responseText =>
      if is2xx status then
        if ToBoolean response then Resolved response
        else match responseText with
             | None => Pending
             | Some text => Resolved (jsOr (JStr text) (JObj []))
             end
      else Rejected (Error ("Upload failed (status " ++ string_of_status status ++ ")"))
  | XhrError => Rejected (Error "Network error during upload")
  | XhrTimeout => Rejected (Error "Upload timeout")
  | XhrSendThrows e => Rejected e
  end.

Section Transport.
Context {rt : JsRuntime}.

(** analyze.js [uploadFileWithProgress] *)
Definition uploadFileWithProgress (ev : XhrEvent) : Settled :=
  match ev with
  | XhrLoad status response responseText =>
      if is2xx status then Resolved response
      else
        let failed := Rejected (Error ("Upload failed: " ++ string_of_status status)) in
        if ToBoolean response then Resolved response
        else match responseText with
             | None => failed
             | Some text =>
                 match JSON_parse (if text =? "" then "{}" else text) with
                 | Some parsed => Resolved parsed
                 | None => failed
                 end
             end
  | XhrError => Rejected (Error "Network error during upload")
  | XhrTimeout => Rejected (Error "Upload timeout")
  | XhrSendThrows e => Rejected e
  end.
End Transport.

(** ** The two analyze flows *)

Section Flows.
Context {rt : JsRuntime} {br : Browser}.

(** What a flow does that the page or the server can observe, in order. *)
Inductive Step : Type :=
| Compressed (run : Run Blob)
| Sent (blob : Blob)
| Normalized (raw data : JsVal)
| Rendered (data : JsVal)
| RenderedWith (data detected_objects : JsVal)
| Message (text : string).

(** script.js [validateImageFile]: the message, [None] for [null] *)
Definition validateImageFile (file : option Blob) : option string :=
  match file with
  | None => Some "No file selected"
  | Some f =>
      if negb (existsb (String.eqb (type f)) ALLOWED_TYPES)
      then Some "Unsupported file type — use JPG/PNG/WebP/GIF"
      else if (MAX_IMAGE_SIZE <? size f)%float
      then Some "Image too large — keep under 8 MB"
      else None
  end.

(** [err && err.message ? err.message : 'server or network error'] *)
Definition failureText (e : JsError) : string :=
  "❌ Analysis failed — "
  ++ (if message e =? "" then "server or network error" else message e).

(** script.js [analyzeImage], for the file of the input element and the
    event that ends the upload, on a page that has its results section;
    [None] only if the re-encoding loop were to run out of iterations. The
    [catch] handles every failure of the [try] block by writing
    [failureText] into the results pane. *)
Definition analyzeImage (file : option Blob) (ev : XhrEvent) : option (list Step) :=
  match validateImageFile file with
  | Some validation => Some [Message validation]
  | None =>
      match maybeCompress file with
      | None => None
      | Some run =>
          match result run with
          | Throws err => Some [Message (failureText err)]
          | Returns compressed =>
              let done := [Compressed (mkRun compressed (events run)); Sent compressed] in
              match uploadWithProgress ev with
              | Pending => Some done
              | Rejected err => Some (done ++ [Message (failureText err)])%list
              | Resolved response =>
                  match normalizeResponse response with
                  | Throws err => Some (done ++ [Message (failureText err)])%list
                  | Returns data =>
                      Some (done ++ [Normalized response data; Rendered data])%list
                  end
              end
          end
      end
  end.

(** analyze.js [showMockResult]: the sample handed to [renderResults] *)
Definition mockResult : JsVal :=
  JObj [("detected_objects", JArr [JObj [("name", JStr "bottle"); ("points", JNum 10)]]);
        ("carbon_saved_kg", JNum 0.5);
        ("recommendations", JArr [JStr "Recycle the bottle at nearest center"]);
        ("eco_points", JNum 5)].

(** [typeof res === 'object'] for a value that is not [null] *)
Definition isObject (v : JsVal) : bool :=
  match v with JArr _ | JObj _ => true | _ => false end.

(** analyze.js, the click handler of the analyze button, for [currentFile]
    and the event that ends the upload. On a resolved upload the payload
    (or [{}]) gets its [detected_objects] property assigned and is rendered;
    the [catch] shows the error and then the sample result. The handler is
    modelled as it is written; [renderResults] of analyze.js, which it
    calls, uses [await] outside an async function and is not modelled. *)
Definition analyzeClick (currentFile : option Blob) (ev : XhrEvent) : option (list Step) :=
  match currentFile with
  | None => Some [Message "Select or capture image first"]
  | Some file =>
      match compressImage file MAX_UPLOAD_BYTES MAX_WIDTH with
      | None => None
      | Some run =>
          let done := [Compressed run; Sent (result run)] in
          match uploadFileWithProgress ev with
          | Pending => Some done
          | Rejected err =>
              Some (done ++ [Message ("Server error: " ++ message err
                                      ++ ". Showing sample result.");
                             Rendered mockResult])%list
          | Resolved res =>
              let data := if ToBoolean res && isObject res then res else JObj [] in
              let detected :=
                jsOr (jsOr (jsOr (jsOr (jsOr (get data "detected_objects")
                                             (get data "detected"))
                                       (get data "items"))
                                 (get data "objects"))
                           (get data "results"))
                     (JArr []) in
              Some (done ++ [RenderedWith data detected])%list
          end
      end
  end.
End Flows.

(** ** The quality schedule of the loop *)

(** The qualities the loop re-encodes at, from [quality] on, as long as every
    blob is over budget: one more step while [quality > 0.35]. *)
Fixpoint descent (fuel : nat) (quality : float) : list float :=
  match fuel with
  | O => []
  | S fuel' =>
      if (0.35 <? quality)%float
      then let quality' := (quality - 0.07)%float in quality' :: descent fuel' quality'
      else []
  end.

(** The loop guard [quality > 0.35] fails within [fuel] decrements. *)
Fixpoint settles (fuel : nat) (quality : float) : bool :=
  match fuel with
  | O => negb (0.35 <? quality)%float
  | S fuel' => negb (0.35 <? quality)%float || settles fuel' (quality - 0.07)%float
  end.

(** The iteration bound of the design notes, ceil((initial - min) / step),
    on qualities given in hundredths. *)
Definition iterationBound (initialQ minQ stepQ : Z) : Z :=
  ((initialQ - minQ + stepQ - 1) / stepQ)%Z.

(** ** Instances for the closed examples *)

(** A runtime for the examples below. None of them converts between numbers
    and strings or parses JSON text, so its three functions are never
    consulted; every theorem is proved for all runtimes. *)
Definition exampleRuntime : JsRuntime :=
  {| NumberToString := fun _ => "NaN";
     StringToNumber := fun _ => PrimFloat.nan;
     JSON_parse := fun _ => None |}.

(** A file or an encoded blob of the example browser: its size and type, the
    pixel size it decodes to ([None]: not decodable), and the quality it was
    encoded at ([None]: not produced by the canvas). *)
Record ExampleBlob : Type := {
  ex_size : float;
  ex_type : string;
  ex_pixels : option (float * float);
  ex_quality : option float
}.

(** A browser whose canvas encoder always succeeds with a 16 MiB JPEG of the
    canvas size, whatever the quality, and that decodes the files that carry
    pixels. *)
Definition exampleBrowser : Browser :=
  {| Blob := ExampleBlob;
     size := ex_size;
     type := ex_type;
     Bitmap := float * float;
     width := fst;
     height := snd;
     hasCreateImageBitmap := true;
     createImageBitmap := fun f =>
       match ex_pixels f with
       | Some wh => Returns wh
       | None => Throws (Error "The source image could not be decoded.")
       end;
     decodeViaImage := fun f =>
       match ex_pixels f with
       | Some wh => Returns wh
       | None => Throws (Error "")
       end;
     toBlob := fun _ w h q =>
       Some {| ex_size := (16 * 1024 * 1024)%float; ex_type := "image/jpeg";
               ex_pixels := Some (w, h); ex_quality := Some q |} |}.

(** A 1 MiB photo, 4000 by 3000 pixels. *)
Definition smallWidePhoto : ExampleBlob :=
  {| ex_size := (1024 * 1024)%float; ex_type := "image/jpeg";
     ex_pixels := Some (4000, 3000)%float; ex_quality := None |}.

(** A 9 MB photo, 2400 by 1800 pixels. *)
Definition largePhoto : ExampleBlob :=
  {| ex_size := 9000000%float; ex_type := "image/jpeg";
     ex_pixels := Some (2400, 1800)%float; ex_quality := None |}.

(** A 2 MiB file with an image type whose content is not an image. *)
Definition brokenPhoto : ExampleBlob :=
  {| ex_size := (2 * 1024 * 1024)%float; ex_type := "image/png";
     ex_pixels := None; ex_quality := None |}.

(** The demo server's reply to an upload without image: status 400 with a
    JSON error body. *)
Definition errorBody : JsVal := JObj [("error", JStr "No image uploaded")].

(** Scenario A of the design notes: the demo server's reply to a photo. *)
Definition scenarioA : JsVal :=
  JObj [("detected_objects",
         JArr [JObj [("name", JStr "bottle"); ("confidence", JNum 0.92)]]);
        ("carbon_saved_kg", JNum 0.5);
        ("total_points", JNum 10)].

(** A reply that carries its own [debug] object. *)
Definition replyWithDebug : JsVal :=
  JObj [("detected_objects", JArr []);
        ("debug", JObj [("model_loaded", JBool true); ("detections_count", JNum 7)])].

(** A reply whose only detection has a blank name. *)
Definition blankName : JsVal :=
  JObj [("detected_objects", JArr [JObj [("name", JStr " ")]])].

(** ** Reading a normalized result *)

(** The object literal that [normalizeResponse] returns on its main path, for
    the payload [raw] (after unwrapping) and the mapped detections. *)
Definition mainPathResult {rt : JsRuntime} (raw : JsVal) (detected : list JsVal) : JsVal :=
  JObj [("success",
         if isDefined (get raw "success") then get raw "success" else JBool true);
        ("detected_objects", JArr detected);
        ("recommendations", JArr (fallbackRecs (findRecs raw) detected));
        ("eco_points",
         if isDefined (get raw "eco_points") then get raw "eco_points"
         else jsOr (jsOr (get raw "points") (get raw "points_earned")) (JNum 0));
        ("carbon_saved_kg",
         if isDefined (get raw "carbon_saved_kg") then get raw "carbon_saved_kg"
         else jsOr (get raw "carbon") (JNum 0));
        ("filename", jsOr (jsOr (get raw "filename") (get raw "file")) (JStr ""));
        ("debug",
         jsOr (get raw "debug")
              (JObj [("model_loaded", jsOr (get raw "model_loaded") (JBool false));
                     ("detections_count", JNum (num_of_nat (List.length detected)))]))].

(** A normalized detection whose [name] is not empty. *)
Definition hasLabel (d : JsVal) : bool := ToBoolean (get d "name").

(** A normalized detection whose [conf] is a number other than NaN and -0. *)
Definition hasPlainConf (d : JsVal) : bool :=
  match get d "conf" with
  | JNum c => ToBoolean (JNum c) || PrimFloat.Leibniz.eqb c 0
  | _ => false
  end.

(** The text after the label in a generated recommendation. *)
Definition genericAdvice : string := " — Unknown: please consult local recycling rules".

(** The object literal returned by the callback of [detected.map]. *)
Definition detection (label : string) (conf : float) (bbox : JsVal) : JsVal :=
  JObj [("name", JStr label); ("conf", JNum conf); ("bbox", bbox)].

Arguments trim : simpl never.

(** What [normalizeResponse] makes of [scenarioA]. *)
Definition scenarioA_normalized : JsVal :=
  JObj [("success", JBool true);
        ("detected_objects", JArr [detection "bottle" 0.92 JNull]);
        ("recommendations",
         JArr [JStr "bottle — Unknown: please consult local recycling rules"]);
        ("eco_points", JNum 0);
        ("carbon_saved_kg", JNum 0.5);
        ("filename", JStr "");
        ("debug", JObj [("model_loaded", JBool false); ("detections_count", JNum 1)])].

(** A reply whose only detection is [null]. *)
Definition nullDetection : JsVal := JObj [("detected_objects", JArr [JNull])].

(** ** script.js and analyze.js: escaping for HTML *)

(** The double quote character. *)
Definition dquote : ascii := ascii_of_nat 34.

(** [String.prototype.replace] with a global character-class pattern and a
    replacer function: every character goes through [f], which returns the
    character itself where the pattern does not match. *)
Fixpoint replaceChars (f : ascii -> string) (s : string) : string :=
  match s with
  | EmptyString => EmptyString
  | String c rest => f c ++ replaceChars f rest
  end.

(** The replacer of [sanitize] (script.js) and [escapeHtml] (analyze.js):
    the pattern matches the ampersand, the two angle brackets, the double and
    the single quote, the backquote, the equals sign and the slash. *)
Definition escapeEight (c : ascii) : string :=
  if Ascii.eqb c "&" then "&amp;"
  else if Ascii.eqb c "<" then "&lt;"
  else if Ascii.eqb c ">" then "&gt;"
  else if Ascii.eqb c dquote then "&quot;"
  else if Ascii.eqb c "'" then "&#39;"
  else if Ascii.eqb c "/" then "&#x2F;"
  else if Ascii.eqb c "`" then "&#x60;"
  else if Ascii.eqb c "=" then "&#x3D;"
  else String c EmptyString.

(** The replacer of [sanitizeHtml]: the pattern matches the ampersand and
    the two angle brackets. *)
Definition escapeThree (c : ascii) : string :=
  if Ascii.eqb c "&" then "&amp;"
  else if Ascii.eqb c "<" then "&lt;"
  else if Ascii.eqb c ">" then "&gt;"
  else String c EmptyString.

(** The characters that open or close a tag or an attribute value. *)
Definition isMarkup (c : ascii) : bool :=
  Ascii.eqb c "<" || Ascii.eqb c ">" || Ascii.eqb c dquote || Ascii.eqb c "'"
  || Ascii.eqb c "/" || Ascii.eqb c "`" || Ascii.eqb c "=".

Definition isAngle (c : ascii) : bool := Ascii.eqb c "<" || Ascii.eqb c ">".

(** Every character of [s] satisfies [p]. *)
Fixpoint allChars (p : ascii -> bool) (s : string) : bool :=
  match s with
  | EmptyString => true
  | String c rest => p c && allChars p rest
  end.

Section Escaping.
Context {rt : JsRuntime}.

(** script.js [sanitize]: [if (s == null) return '';] then the replacement *)
Definition sanitize (s : JsVal) : string :=
  match s with
  | JUndefined | JNull => ""
  | _ => replaceChars escapeEight (ToString s)
  end.

(** script.js [sanitizeHtml]. The script declares the function twice in the
    same scope; calls reach the later declaration, modelled here. *)
Definition sanitizeHtml (s : JsVal) : string :=
  match s with
  | JUndefined | JNull => ""
  | _ => replaceChars escapeThree (ToString s)
  end.

(** analyze.js [escapeHtml(s = '')]: only [undefined] takes the default *)
Definition escapeHtml (s : JsVal) : string :=
  replaceChars escapeEight (ToString (match s with JUndefined => JStr "" | _ => s end)).

(** ** script.js: [getAuthHeaders] *)

(** The assignment [o[k] = v] on an object: the binding of [k] is replaced
    where it stands, or added at the end. *)
Fixpoint setBinding (k : string) (v : JsVal) (props : list (string * JsVal))
  : list (string * JsVal) :=
  match props with
  | [] => [(k, v)]
  | (k', v') :: rest =>
      if k =? k' then (k, v) :: rest else (k', v') :: setBinding k v rest
  end.

(** The own enumerable properties that [Object.assign] copies from a source:
    those of an object, the indexed elements of an array or of a string, and
    none of any other value. *)
Fixpoint indexed {A : Type} (f : A -> JsVal) (i : nat) (l : list A) : list (string * JsVal) :=
  match l with
  | [] => []
  | a :: rest => (string_of_nat i, f a) :: indexed f (S i) rest
  end.

Definition ownProps (v : JsVal) : list (string * JsVal) :=
  match v with
  | JObj props => props
  | JArr l => indexed (fun x => x) 0 l
  | JStr s => indexed (fun c => JStr (String c EmptyString)) 0 (list_ascii_of_string s)
  | _ => []
  end.

(** [getAuthHeaders(extra)] for the stored [authToken] (a string or [null]);
    an omitted argument is [undefined] and takes the default [{}]. *)
Definition getAuthHeaders (authToken : JsVal) (extra : JsVal) : JsVal :=
  let h := ownProps (match extra with JUndefined => JObj [] | _ => extra end) in
  if ToBoolean authToken
  then JObj (setBinding "Authorization" (JStr ("Bearer " ++ ToString authToken)) h)
  else JObj h.
End Escaping.

(** ** auth.js: the stored session *)

(** [localStorage]: [getItem] by key, [None] for [null]. *)
Definition Storage : Type := string -> option string.

Definition setItem (k v : string) (st : Storage) : Storage :=
  fun k' => if k' =? k then Some v else st k'.

Definition removeItem (k : string) (st : Storage) : Storage :=
  fun k' => if k' =? k then None else st k'.

Definition getItem (k : string) (st : Storage) : JsVal :=
  match st k with Some v => JStr v | None => JNull end.

Definition STORAGE_TOKEN : string := "ecowise.token".
Definition STORAGE_USERNAME : string := "ecowise.username".

(** The page as auth.js changes it: [localStorage], the fields of
    [window.ECOWISE], the text of the welcome line, whether the sign-in links
    and the logout button are displayed, and the address the page was sent
    to. The three elements are taken to be present and the storage to be
    available. *)
Record AuthPage : Type := {
  storage : Storage;
  ecowiseToken : JsVal;
  ecowiseUsername : JsVal;
  isAuthenticated : bool;
  welcomeLine : string;
  authLinksShown : bool;
  logoutShown : bool;
  location : option string
}.

Section Auth.
Context {rt : JsRuntime}.

Definition getToken (p : AuthPage) : JsVal := getItem STORAGE_TOKEN (storage p).
Definition getUsername (p : AuthPage) : JsVal := getItem STORAGE_USERNAME (storage p).

Definition setToken (token : JsVal) (p : AuthPage) : AuthPage :=
  {| storage := if ToBoolean token then setItem STORAGE_TOKEN (ToString token) (storage p)
                else removeItem STORAGE_TOKEN (storage p);
     ecowiseToken := token;
     ecowiseUsername := ecowiseUsername p;
     isAuthenticated := ToBoolean token;
     welcomeLine := welcomeLine p;
     authLinksShown := authLinksShown p;
     logoutShown := logoutShown p;
     location := location p |}.

Definition setUsername (u : JsVal) (p : AuthPage) : AuthPage :=
  {| storage := if ToBoolean u then setItem STORAGE_USERNAME (ToString u) (storage p)
                else removeItem STORAGE_USERNAME (storage p);
     ecowiseToken := ecowiseToken p;
     ecowiseUsername := u;
     isAuthenticated := isAuthenticated p;
     welcomeLine := welcomeLine p;
     authLinksShown := authLinksShown p;
     logoutShown := logoutShown p;
     location := location p |}.

Definition showGuestUI (p : AuthPage) : AuthPage :=
  let p1 := setUsername JNull
              {| storage := storage p;
                 ecowiseToken := ecowiseToken p;
                 ecowiseUsername := ecowiseUsername p;
                 isAuthenticated := isAuthenticated p;
                 welcomeLine := "Signed in as Guest — analyze to create an account";
                 authLinksShown := true;
                 logoutShown := false;
                 location := location p |} in
  {| storage := storage p1;
     ecowiseToken := ecowiseToken p1;
     ecowiseUsername := ecowiseUsername p1;
     isAuthenticated := false;
     welcomeLine := welcomeLine p1;
     authLinksShown := authLinksShown p1;
     logoutShown := logoutShown p1;
     location := location p1 |}.

Definition showUserUI (username : JsVal) (p : AuthPage) : AuthPage :=
  let p1 := setUsername username
              {| storage := storage p;
                 ecowiseToken := ecowiseToken p;
                 ecowiseUsername := ecowiseUsername p;
                 isAuthenticated := isAuthenticated p;
                 welcomeLine := "Welcome back, " ++ ToString username;
                 authLinksShown := false;
                 logoutShown := true;
                 location := location p |} in
  {| storage := storage p1;
     ecowiseToken := ecowiseToken p1;
     ecowiseUsername := ecowiseUsername p1;
     isAuthenticated := true;
     welcomeLine := welcomeLine p1;
     authLinksShown := authLinksShown p1;
     logoutShown := logoutShown p1;
     location := location p1 |}.

(** The [onclick] handler that [setupLogout] installs. *)
Definition logout (p : AuthPage) : AuthPage :=
  let p2 := setUsername JNull (setToken JNull p) in
  {| storage := storage p2;
     ecowiseToken := ecowiseToken p2;
     ecowiseUsername := ecowiseUsername p2;
     isAuthenticated := isAuthenticated p2;
     welcomeLine := welcomeLine p2;
     authLinksShown := authLinksShown p2;
     logoutShown := logoutShown p2;
     location := Some "login.html" |}.

(** [init], for the value [fetchMe(token)] resolves with: the user object of
    the server's answer, or [null]. *)
Definition init (me : JsVal) (p : AuthPage) : AuthPage :=
  let token := getToken p in
  let storedUser := getUsername p in
  let p0 := {| storage := storage p;
               ecowiseToken := token;
               ecowiseUsername := storedUser;
               isAuthenticated := isAuthenticated p;
               welcomeLine := welcomeLine p;
               authLinksShown := authLinksShown p;
               logoutShown := logoutShown p;
               location := location p |} in
  if negb (ToBoolean token) then showGuestUI p0
  else if negb (ToBoolean me) then showGuestUI (setToken JNull p0)
  else showUserUI (get me "username") p0.
End Auth.

(** A page on which nothing is stored. *)
Definition freshPage : AuthPage :=
  {| storage := fun _ => None;
     ecowiseToken := JNull;
     ecowiseUsername := JNull;
     isAuthenticated := false;
     welcomeLine := "";
     authLinksShown := true;
     logoutShown := false;
     location := None |}.

(** A page whose storage holds a token and a user name. *)
Definition signedInPage : AuthPage :=
  {| storage := setItem STORAGE_USERNAME "asha" (setItem STORAGE_TOKEN "t0k3n" (fun _ => None));
     ecowiseToken := JNull;
     ecowiseUsername := JNull;
     isAuthenticated := false;
     welcomeLine := "";
     authLinksShown := true;
     logoutShown := false;
     location := None |}.

(** ** Normalized detections *)

(** A detection as the callback of [detected.map] builds it: a trimmed
    label, a number, and a box that is truthy or [null]. *)
Definition shaped (d : JsVal) : Prop :=
  exists label conf bbox,
    d = detection label conf bbox
    /\ trim label = label
    /\ (ToBoolean bbox = true \/ bbox = JNull).

(** A shaped detection that another pass leaves alone: the label is not
    empty and the confidence is neither NaN nor -0. *)
Definition settled (d : JsVal) : Prop :=
  exists label conf bbox,
    d = detection label conf bbox
    /\ trim label = label
    /\ label <> ""
    /\ (ToBoolean (JNum conf) = true \/ conf = 0%float)
    /\ (ToBoolean bbox = true \/ bbox = JNull).


(** ** One more browser for the closed examples *)

(** A browser whose canvas encoder yields a JPEG of [quality] times 16 MiB. *)
Definition scalingBrowser : Browser :=
  {| Blob := ExampleBlob;
     size := ex_size;
     type := ex_type;
     Bitmap := float * float;
     width := fst;
     height := snd;
     hasCreateImageBitmap := true;
     createImageBitmap := fun f =>
       match ex_pixels f with
       | Some wh => Returns wh
       | None => Throws (Error "The source image could not be decoded.")
       end;
     decodeViaImage := fun f =>
       match ex_pixels f with
       | Some wh => Returns wh
       | None => Throws (Error "")
       end;
     toBlob := fun _ w h q =>
       Some {| ex_size := (q * (16 * 1024 * 1024))%float; ex_type := "image/jpeg";
               ex_pixels := Some (w, h); ex_quality := Some q |} |}.

(** The run of [compressImage] on the 9 MB photo in that browser: the fourth
    encoding, at about 0.71, is the first under 12 MiB. *)
Definition scalingRun : Run ExampleBlob :=
  {| result := {| ex_size := (0.70999999999999996 * (16 * 1024 * 1024))%float;
                  ex_type := "image/jpeg";
                  ex_pixels := Some (1200, 900)%float;
                  ex_quality := Some 0.70999999999999996%float |};
     events := [Decode; Draw 1200 900; Encode 1200 900 0.92;
                Encode 1200 900 0.85000000000000009;
                Encode 1200 900 0.78000000000000003;
                Encode 1200 900 0.70999999999999996] |}.

(** The eight characters that [sanitize] and [escapeHtml] replace. *)
Definition isSpecial (c : ascii) : bool := Ascii.eqb c "&" || isMarkup c.

(** * Properties *)

Local Open Scope list_scope.

(** ** [trim] is idempotent *)

(** Case analysis on every token test in the goal. *)
Ltac case_tokens tok :=
  repeat match goal with
         | |- context [if tok ?t then _ else _] => destruct (tok t)
         end.

Section Strip.
Variable tok : list ascii -> bool.
Hypothesis tok_nil : tok [] = false.

Lemma strip_shorter (l rest : list ascii) :
  strip tok l = Some rest -> (List.length rest < List.length l)%nat.
Proof.
  unfold strip.
  destruct l as [|a [|b [|c l']]]; simpl; rewrite ?tok_nil; case_tokens tok;
    intros H; inversion H; subst; simpl; lia.
Qed.

Lemma strip_app (l rest u : list ascii) :
  strip tok l = Some rest -> strip tok (l ++ u) = Some (rest ++ u).
Proof.
  unfold strip.
  destruct l as [|a [|b [|c l']]]; simpl; rewrite ?tok_nil.
  - discriminate.
  - destruct (tok [a]) eqn:E1; [intros H; inversion H; reflexivity | discriminate].
  - destruct (tok [a]) eqn:E1; [intros H; inversion H; reflexivity |].
    destruct (tok [a; b]) eqn:E2; [intros H; inversion H; reflexivity | discriminate].
  - destruct (tok [a]) eqn:E1; [intros H; inversion H; reflexivity |].
    destruct (tok [a; b]) eqn:E2; [intros H; inversion H; reflexivity |].
    destruct (tok [a; b; c]) eqn:E3; [intros H; inversion H; reflexivity | discriminate].
Qed.

Lemma stripAll_fixed (fuel : nat) (l : list ascii) :
  strip tok l = None -> stripAll tok fuel l = l.
Proof. destruct fuel; simpl; [reflexivity | intros ->; reflexivity]. Qed.

Lemma stripAll_clean (fuel : nat) (l : list ascii) :
  (List.length l <= fuel)%nat -> strip tok (stripAll tok fuel l) = None.
Proof.
  revert l; induction fuel as [|fuel IH]; intros l Hlen; simpl.
  - destruct l; [|simpl in Hlen; lia].
    unfold strip; simpl; rewrite tok_nil; reflexivity.
  - destruct (strip tok l) as [rest|] eqn:E; [|exact E].
    apply IH. apply strip_shorter in E. lia.
Qed.

Lemma stripAll_suffix (fuel : nat) (l : list ascii) :
  exists p, l = p ++ stripAll tok fuel l.
Proof.
  revert l; induction fuel as [|fuel IH]; intros l; simpl.
  - exists []; reflexivity.
  - destruct (strip tok l) as [rest|] eqn:E; [|exists []; reflexivity].
    destruct (IH rest) as [p Hp].
    assert (Hs : exists q, l = q ++ rest).
    { revert E; unfold strip. case_tokens tok; intros H; inversion H;
        [exists (firstn 1 l) | exists (firstn 2 l) | exists (firstn 3 l)];
        symmetry; apply firstn_skipn. }
    destruct Hs as [q Hq]. exists (q ++ p).
    rewrite <- app_assoc, <- Hp. exact Hq.
Qed.
End Strip.

Lemma isWhiteSpace_nil : isWhiteSpace [] = false.
Proof. reflexivity. Qed.

Lemma isWhiteSpace_rev_nil : (fun t => isWhiteSpace (rev t)) [] = false.
Proof. reflexivity. Qed.

Lemma trimStartBytes_clean (l : list ascii) :
  strip isWhiteSpace (trimStartBytes l) = None.
Proof. apply stripAll_clean; [exact isWhiteSpace_nil | apply Nat.le_refl]. Qed.

Lemma trimEndBytes_prefix (l : list ascii) : exists u, l = trimEndBytes l ++ u.
Proof.
  unfold trimEndBytes.
  destruct (stripAll_suffix (fun t => isWhiteSpace (rev t)) (List.length l) (rev l))
    as [p Hp].
  exists (rev p).
  rewrite <- rev_app_distr, <- Hp, rev_involutive. reflexivity.
Qed.

Lemma trimEndBytes_keeps_clean (l : list ascii) :
  strip isWhiteSpace l = None -> strip isWhiteSpace (trimEndBytes l) = None.
Proof.
  intros Hl. destruct (trimEndBytes_prefix l) as [u Hu].
  destruct (strip isWhiteSpace (trimEndBytes l)) as [rest|] eqn:E; [|reflexivity].
  apply (strip_app isWhiteSpace isWhiteSpace_nil) with (u := u) in E.
  rewrite <- Hu, Hl in E. discriminate.
Qed.

Lemma trimEndBytes_idempotent (l : list ascii) :
  trimEndBytes (trimEndBytes l) = trimEndBytes l.
Proof.
  unfold trimEndBytes. rewrite rev_involutive.
  rewrite stripAll_fixed; [reflexivity|].
  apply stripAll_clean; [exact isWhiteSpace_rev_nil | rewrite length_rev; apply Nat.le_refl].
Qed.

Lemma trimBytes_idempotent (l : list ascii) :
  trimEndBytes (trimStartBytes (trimEndBytes (trimStartBytes l)))
  = trimEndBytes (trimStartBytes l).
Proof.
  unfold trimStartBytes at 1.
  rewrite stripAll_fixed
    by (apply trimEndBytes_keeps_clean, trimStartBytes_clean).
  apply trimEndBytes_idempotent.
Qed.

Lemma trim_idempotent (s : string) : trim (trim s) = trim s.
Proof.
  unfold trim. rewrite list_ascii_of_string_of_list_ascii.
  rewrite trimBytes_idempotent. reflexivity.
Qed.

(** ** The normalizer *)

Lemma jsOr_truthy_or_default (a d : JsVal) :
  ToBoolean (jsOr a d) = true \/ jsOr a d = d.
Proof. unfold jsOr. destruct (ToBoolean a) eqn:E; [left; exact E | right; reflexivity]. Qed.

Lemma jsOr_defined (a d : JsVal) : isDefined d = true -> isDefined (jsOr a d) = true.
Proof.
  unfold jsOr. intros Hd. destruct (ToBoolean a) eqn:E; [|exact Hd].
  destruct a; simpl in *; congruence.
Qed.

Lemma jsOr_left (a d : JsVal) : ToBoolean a = true -> jsOr a d = a.
Proof. unfold jsOr. intros ->. reflexivity. Qed.

Lemma jsOr_right (a d : JsVal) : ToBoolean a = false -> jsOr a d = d.
Proof. unfold jsOr. intros ->. reflexivity. Qed.

Lemma mapM_length {A B : Type} (f : A -> Outcome B) (l : list A) (l' : list B) :
  mapM f l = Returns l' -> List.length l' = List.length l.
Proof.
  revert l'; induction l as [|a l IH]; simpl; intros l' H.
  - inversion H; reflexivity.
  - destruct (f a) as [b|e]; simpl in H; [|discriminate].
    destruct (mapM f l) as [bs|e]; simpl in H; [|discriminate].
    inversion H; subst; simpl. f_equal. apply IH. reflexivity.
Qed.

Lemma mapM_Forall2 {A B : Type} (f : A -> Outcome B) (l : list A) (l' : list B) :
  mapM f l = Returns l' -> Forall2 (fun a b => f a = Returns b) l l'.
Proof.
  revert l'; induction l as [|a l IH]; simpl; intros l' H.
  - inversion H; constructor.
  - destruct (f a) as [b|e] eqn:E; simpl in H; [|discriminate].
    destruct (mapM f l) as [bs|e]; simpl in H; [|discriminate].
    inversion H; subst. constructor; [exact E | apply IH; reflexivity].
Qed.

Lemma mapM_In {A B : Type} (f : A -> Outcome B) (l : list A) (l' : list B) (b : B) :
  mapM f l = Returns l' -> In b l' -> exists a, In a l /\ f a = Returns b.
Proof.
  intros Hm. apply mapM_Forall2 in Hm.
  induction Hm as [|a b' l l' Hab _ IH]; intros Hb; [destruct Hb|].
  destruct Hb as [-> | Hb].
  - exists a. split; [left; reflexivity | exact Hab].
  - destruct (IH Hb) as [a' [Ha' Hf]]. exists a'. split; [right; exact Ha' | exact Hf].
Qed.

Lemma mapM_fixed {A : Type} (f : A -> Outcome A) (l : list A) :
  Forall (fun a => f a = Returns a) l -> mapM f l = Returns l.
Proof.
  induction 1 as [|a l Ha _ IH]; simpl; [reflexivity|].
  rewrite Ha; simpl. rewrite IH; reflexivity.
Qed.

Section NormalizerFacts.
Context {rt : JsRuntime}.

Lemma normalizeResponse_main (raw : JsVal) :
  ToBoolean raw = true ->
  normalizeResponse raw
  = (detected <- mapM normalizeDetection (findDetected (unwrapEnvelope raw)) ;;
     Returns (mainPathResult (unwrapEnvelope raw) detected)).
Proof. intros H. unfold normalizeResponse. rewrite H. reflexivity. Qed.

Lemma normalizeResponse_inv (raw out : JsVal) :
  ToBoolean raw = true ->
  normalizeResponse raw = Returns out ->
  exists ds,
    mapM normalizeDetection (findDetected (unwrapEnvelope raw)) = Returns ds
    /\ out = mainPathResult (unwrapEnvelope raw) ds.
Proof.
  intros Ht H. rewrite (normalizeResponse_main _ Ht) in H.
  destruct (mapM normalizeDetection _) as [ds|e]; simpl in H; [|discriminate].
  exists ds. split; [reflexivity | congruence].
Qed.

Lemma normalizeDetection_shape (d d' : JsVal) :
  normalizeDetection d = Returns d' ->
  exists label conf bbox,
    d' = detection (trim label) conf bbox /\ (ToBoolean bbox = true \/ bbox = JNull).
Proof.
  unfold normalizeDetection.
  destruct d; try discriminate; intros H; injection H as <-;
    eexists _, _, _; (split; [reflexivity | apply jsOr_truthy_or_default]).
Qed.

Lemma normalizeDetection_fixed (label : string) (conf : float) (bbox : JsVal) :
  trim label = label -> label <> "" ->
  ToBoolean (JNum conf) = true \/ conf = 0%float ->
  ToBoolean bbox = true \/ bbox = JNull ->
  normalizeDetection (detection label conf bbox) = Returns (detection label conf bbox).
Proof.
  intros Htrim Hne Hconf Hbbox.
  assert (Hl : ToBoolean (JStr label) = true).
  { simpl. apply String.eqb_neq in Hne. rewrite Hne. reflexivity. }
  unfold normalizeDetection, detection. simpl get. simpl isDefined. cbv iota.
  rewrite !(jsOr_left (JStr label) _ Hl). simpl ToString. rewrite Htrim.
  assert (Hc : ToNumber (jsOr (JNum conf) (JNum 0)) = conf).
  { destruct Hconf as [Hc | ->]; [rewrite (jsOr_left _ _ Hc) | ]; reflexivity. }
  assert (Hb : jsOr (jsOr (jsOr bbox JUndefined) JUndefined) JNull = bbox).
  { destruct Hbbox as [Hb | ->]; [rewrite !(jsOr_left bbox _ Hb) | ]; reflexivity. }
  rewrite Hc, Hb. reflexivity.
Qed.

(** Field reads on a main-path result. *)
Lemma get_main_detected (raw : JsVal) (ds : list JsVal) :
  get (mainPathResult raw ds) "detected_objects" = JArr ds.
Proof. reflexivity. Qed.

Lemma get_main_recommendations (raw : JsVal) (ds : list JsVal) :
  get (mainPathResult raw ds) "recommendations" = JArr (fallbackRecs (findRecs raw) ds).
Proof. reflexivity. Qed.

Lemma get_main_debug (raw : JsVal) (ds : list JsVal) :
  get (mainPathResult raw ds) "debug"
  = jsOr (get raw "debug")
         (JObj [("model_loaded", jsOr (get raw "model_loaded") (JBool false));
                ("detections_count", JNum (num_of_nat (List.length ds)))]).
Proof. reflexivity. Qed.

Lemma genericRec_detection (label : string) (conf : float) (bbox : JsVal) :
  genericRec (detection label conf bbox) = JStr (label ++ genericAdvice)%string.
Proof. reflexivity. Qed.

Lemma fallbackRecs_again (recs ds : list JsVal) :
  fallbackRecs (fallbackRecs recs ds) ds = fallbackRecs recs ds.
Proof.
  unfold fallbackRecs.
  destruct recs as [|r recs], ds as [|d ds]; reflexivity.
Qed.
End NormalizerFacts.

Lemma either_defined (x d : JsVal) :
  isDefined d = true -> isDefined (if isDefined x then x else d) = true.
Proof. intros Hd. destruct (isDefined x) eqn:E; [exact E | exact Hd]. Qed.

Lemma defined_again (s d : JsVal) : isDefined s = true -> (if isDefined s then s else d) = s.
Proof. intros ->. reflexivity. Qed.

Lemma jsOr_default_again (x d : JsVal) :
  ToBoolean d = false -> jsOr (jsOr (jsOr x d) JUndefined) d = jsOr x d.
Proof.
  intros Hd. unfold jsOr. destruct (ToBoolean x) eqn:E.
  - rewrite E. rewrite E. reflexivity.
  - rewrite Hd. reflexivity.
Qed.

Section NormalizerClaims.
Context {rt : JsRuntime}.

Lemma mainPathResult_fixed (raw : JsVal) (ds : list JsVal) :
  mainPathResult (mainPathResult raw ds) ds = mainPathResult raw ds.
Proof.
  unfold mainPathResult at 1.
  rewrite (defined_again (get (mainPathResult raw ds) "success") (JBool true))
    by exact (either_defined (get raw "success") (JBool true) eq_refl).
  rewrite (defined_again (get (mainPathResult raw ds) "eco_points"))
    by exact (either_defined (get raw "eco_points") _ (jsOr_defined _ (JNum 0) eq_refl)).
  rewrite (defined_again (get (mainPathResult raw ds) "carbon_saved_kg"))
    by exact (either_defined (get raw "carbon_saved_kg") _
                             (jsOr_defined _ (JNum 0) eq_refl)).
  replace (findRecs (mainPathResult raw ds)) with (fallbackRecs (findRecs raw) ds)
    by reflexivity.
  rewrite fallbackRecs_again.
  replace (jsOr (jsOr (get (mainPathResult raw ds) "filename")
                      (get (mainPathResult raw ds) "file")) (JStr ""))
    with (get (mainPathResult raw ds) "filename")
    by (symmetry;
        exact (jsOr_default_again (jsOr (get raw "filename") (get raw "file"))
                                  (JStr "") eq_refl)).
  rewrite (jsOr_left (get (mainPathResult raw ds) "debug")).
  - reflexivity.
  - rewrite get_main_debug.
    destruct (jsOr_truthy_or_default (get raw "debug")
                (JObj [("model_loaded", jsOr (get raw "model_loaded") (JBool false));
                       ("detections_count", JNum (num_of_nat (List.length ds)))]))
      as [H | H]; [exact H | rewrite H; reflexivity].
Qed.

Lemma normalized_detections_fixed (l ds : list JsVal) :
  mapM normalizeDetection l = Returns ds ->
  (forall d, In d ds -> hasLabel d = true /\ hasPlainConf d = true) ->
  mapM normalizeDetection ds = Returns ds.
Proof.
  intros Hm Hgood. apply mapM_fixed. apply Forall_forall. intros d Hd.
  destruct (Hgood d Hd) as [Hlabel Hconf].
  destruct (mapM_In _ _ _ Hm Hd) as [d0 [_ Hd0]].
  destruct (normalizeDetection_shape _ Hd0) as [label [conf [bbox [-> Hbbox]]]].
  apply normalizeDetection_fixed.
  - apply trim_idempotent.
  - unfold hasLabel in Hlabel. simpl in Hlabel.
    intros E. rewrite E in Hlabel. discriminate.
  - unfold hasPlainConf in Hconf. simpl get in Hconf.
    apply orb_true_iff in Hconf. destruct Hconf as [H | H]; [left; exact H | right].
    apply FloatAxioms.Leibniz.eqb_spec. exact H.
  - exact Hbbox.
Qed.
End NormalizerClaims.

Section NormalizerTheorems.
Context {rt : JsRuntime}.

Lemma fallbackRecs_nil (ds : list JsVal) : fallbackRecs [] ds = List.map genericRec ds.
Proof. destruct ds; reflexivity. Qed.

Lemma normalized_labels (l ds : list JsVal) :
  mapM normalizeDetection l = Returns ds ->
  exists labels,
    List.map (fun d => get d "name") ds = List.map JStr labels
    /\ List.map genericRec ds
       = List.map (fun label => JStr (label ++ genericAdvice)%string) labels.
Proof.
  intros Hm. apply mapM_Forall2 in Hm.
  induction Hm as [|d0 d l ds Hd _ [labels [H1 H2]]].
  - exists []. split; reflexivity.
  - destruct (normalizeDetection_shape _ Hd) as [label [conf [bbox [-> _]]]].
    exists (trim label :: labels). split.
    + change (JStr (trim label) :: List.map (fun d => get d "name") ds
              = JStr (trim label) :: List.map JStr labels).
      rewrite H1. reflexivity.
    + change (genericRec (detection (trim label) conf bbox) :: List.map genericRec ds
              = JStr (trim label ++ genericAdvice)%string
                :: List.map (fun label => JStr (label ++ genericAdvice)%string) labels).
      rewrite H2, genericRec_detection. reflexivity.
Qed.

(** C1 (amended): for every truthy raw input on which normalization
    returns, the result holds one normalized detection per raw detection;
    when the (unwrapped) payload carries no truthy [debug] value, the
    result's [debug.detections_count] is the length of its
    [detected_objects], and when it carries one, that upstream value is the
    result's [debug], unchanged. *)
Theorem detections_count_recomputed_unless_debug (raw out : JsVal) :
  ToBoolean raw = true ->
  normalizeResponse raw = Returns out ->
  exists ds,
    get out "detected_objects" = JArr ds
    /\ List.length ds = List.length (findDetected (unwrapEnvelope raw))
    /\ if ToBoolean (get (unwrapEnvelope raw) "debug")
       then get out "debug" = get (unwrapEnvelope raw) "debug"
       else get (get out "debug") "detections_count"
            = JNum (num_of_nat (List.length ds)).
Proof.
  intros Ht H. destruct (normalizeResponse_inv _ Ht H) as [ds [Hm ->]].
  exists ds. split; [reflexivity|]. split; [exact (mapM_length _ _ Hm)|].
  rewrite get_main_debug.
  destruct (ToBoolean (get (unwrapEnvelope raw) "debug")) eqn:E.
  - apply jsOr_left. exact E.
  - rewrite (jsOr_right _ _ E). reflexivity.
Qed.

(** C2: [normalizeResponse(null)] and [normalizeResponse(undefined)] return
    the five-field object of the early return; it has neither a [filename]
    nor a [debug] property, which every result of the main path has. *)
Theorem null_default_lacks_filename_and_debug :
  let early := JObj [("success", JBool false);
                     ("detected_objects", JArr []);
                     ("recommendations", JArr []);
                     ("eco_points", JNum 0);
                     ("carbon_saved_kg", JNum 0)] in
  normalizeResponse JNull = Returns early
  /\ normalizeResponse JUndefined = Returns early
  /\ get early "filename" = JUndefined
  /\ get early "debug" = JUndefined
  /\ (forall raw ds, isDefined (get (mainPathResult raw ds) "filename") = true
                     /\ isDefined (get (mainPathResult raw ds) "debug") = true).
Proof.
  repeat split; try reflexivity.
  - exact (jsOr_defined _ (JStr "") eq_refl).
  - rewrite get_main_debug. apply jsOr_defined. reflexivity.
Qed.

(** C5 (amended): for every truthy raw input on which normalization
    returns and whose recommendations are empty after alias resolution,
    the result's recommendations are, detection by detection, the label
    followed by " — Unknown: please consult local recycling rules"; in
    particular they are empty when there is no detection. *)
Theorem generic_recommendation_per_label (raw out : JsVal) :
  ToBoolean raw = true ->
  normalizeResponse raw = Returns out ->
  findRecs (unwrapEnvelope raw) = [] ->
  exists labels,
    List.map (fun d => get d "name") (elements (get out "detected_objects"))
    = List.map JStr labels
    /\ get out "recommendations"
       = JArr (List.map
                 (fun label =>
                    JStr (label ++ " — Unknown: please consult local recycling rules")%string)
                 labels).
Proof.
  intros Ht H Hrecs. destruct (normalizeResponse_inv _ Ht H) as [ds [Hm ->]].
  destruct (normalized_labels _ Hm) as [labels [H1 H2]].
  exists labels. split; [exact H1|].
  rewrite get_main_recommendations, Hrecs, fallbackRecs_nil, H2. reflexivity.
Qed.

(** C9 (amended): for every truthy raw input on which normalization
    returns a result whose detections all have a non-empty name and a
    confidence other than NaN and -0, normalizing that result again
    returns it unchanged. *)
Theorem normalize_idempotent_on_labelled (raw out : JsVal) :
  ToBoolean raw = true ->
  normalizeResponse raw = Returns out ->
  (forall d, In d (elements (get out "detected_objects")) ->
             hasLabel d = true /\ hasPlainConf d = true) ->
  normalizeResponse out = Returns out.
Proof.
  intros Ht H Hgood. destruct (normalizeResponse_inv _ Ht H) as [ds [Hm ->]].
  rewrite normalizeResponse_main by reflexivity.
  change (unwrapEnvelope (mainPathResult (unwrapEnvelope raw) ds))
    with (mainPathResult (unwrapEnvelope raw) ds).
  change (findDetected (mainPathResult (unwrapEnvelope raw) ds)) with ds.
  rewrite (normalized_detections_fixed _ Hm Hgood).
  simpl bind. rewrite mainPathResult_fixed. reflexivity.
Qed.
End NormalizerTheorems.

(** The examples do not depend on the runtime. *)
Lemma scenarioA_any_runtime (rt : JsRuntime) :
  normalizeResponse scenarioA = Returns scenarioA_normalized.
Proof. reflexivity. Qed.

Lemma blankName_any_runtime (rt : JsRuntime) :
  exists out,
    normalizeResponse blankName = Returns out
    /\ get out "detected_objects" = JArr [detection "" 0 JNull]
    /\ exists again,
        normalizeResponse out = Returns again
        /\ get again "detected_objects" = JArr [detection "item" 0 JNull].
Proof.
  eexists. split; [reflexivity|]. split; [reflexivity|].
  eexists. split; reflexivity.
Qed.

(** Normalization is not total: a [null] among the detections makes the
    callback of [detected.map] throw. *)
Lemma normalize_throws_on_null_detection (rt : JsRuntime) :
  normalizeResponse nullDetection = Throws (Error "Cannot read properties of null").
Proof. reflexivity. Qed.

Lemma seven_is_not_zero : JNum 7 <> JNum (num_of_nat 0).
Proof.
  intros H.
  apply (f_equal (fun v => match v with JNum n => PrimFloat.eqb n 7 | _ => false end)) in H.
  vm_compute in H. discriminate.
Qed.

(** C1, counterexample: a reply with no detection whose own [debug] says
    seven is normalized to a result with an empty [detected_objects] and
    [debug.detections_count] seven. *)
Lemma detections_count_taken_from_upstream :
  match @normalizeResponse exampleRuntime replyWithDebug with
  | Returns out =>
      get out "detected_objects" = JArr []
      /\ get (get out "debug") "detections_count" = JNum 7
      /\ JNum 7 <> JNum (num_of_nat (List.length (@nil JsVal)))
  | Throws _ => False
  end.
Proof. simpl. repeat split. exact seven_is_not_zero. Qed.

(** C1, witness: scenario A carries no [debug]. *)
Lemma detections_count_recomputed_witness :
  exists ds,
    get scenarioA_normalized "detected_objects" = JArr ds
    /\ List.length ds = List.length (findDetected (unwrapEnvelope scenarioA))
    /\ if ToBoolean (get (unwrapEnvelope scenarioA) "debug")
       then get scenarioA_normalized "debug" = get (unwrapEnvelope scenarioA) "debug"
       else get (get scenarioA_normalized "debug") "detections_count"
            = JNum (num_of_nat (List.length ds)).
Proof.
  apply (@detections_count_recomputed_unless_debug exampleRuntime scenarioA);
    reflexivity.
Defined.

(** C5, counterexample: for scenario A, which has a detection and no
    recommendation, the generated text is not the one of the claim. *)
Lemma generic_recommendation_text :
  findRecs (unwrapEnvelope scenarioA) = []
  /\ match @normalizeResponse exampleRuntime scenarioA with
     | Returns out =>
         get out "recommendations"
         = JArr [JStr "bottle — Unknown: please consult local recycling rules"]
         /\ JStr "bottle — Unknown: please consult local recycling rules"
            <> JStr "bottle — consult local disposal guidance."
     | Throws _ => False
     end.
Proof. split; [reflexivity|]. simpl. split; [reflexivity | discriminate]. Qed.

(** C5, witness: scenario A. *)
Lemma generic_recommendation_witness :
  exists labels,
    List.map (fun d => get d "name") (elements (get scenarioA_normalized "detected_objects"))
    = List.map JStr labels
    /\ get scenarioA_normalized "recommendations"
       = JArr (List.map
                 (fun label =>
                    JStr (label ++ " — Unknown: please consult local recycling rules")%string)
                 labels).
Proof.
  apply (@generic_recommendation_per_label exampleRuntime scenarioA); reflexivity.
Defined.

(** C9, counterexample: a detection named by a single space is normalized to
    the empty name, and normalizing the result again names it "item". *)
Lemma normalize_not_idempotent_blank_name :
  match @normalizeResponse exampleRuntime blankName with
  | Returns out =>
      get out "detected_objects" = JArr [detection "" 0 JNull]
      /\ match @normalizeResponse exampleRuntime out with
         | Returns again =>
             get again "detected_objects" = JArr [detection "item" 0 JNull]
             /\ again <> out
         | Throws _ => False
         end
  | Throws _ => False
  end.
Proof. vm_compute. repeat split. discriminate. Qed.

(** C9, witness: scenario A. *)
Lemma normalize_idempotent_witness :
  @normalizeResponse exampleRuntime scenarioA_normalized = Returns scenarioA_normalized.
Proof.
  apply (@normalize_idempotent_on_labelled exampleRuntime scenarioA);
    [reflexivity | reflexivity |].
  intros d [<- | []]. split; reflexivity.
Defined.

(** ** The codec *)

Lemma float_ltb_leb (x y : float) : (x <? y)%float = true -> (x <=? y)%float = true.
Proof.
  rewrite FloatAxioms.ltb_spec, FloatAxioms.leb_spec.
  unfold SFltb, SFleb. destruct (SFcompare (Prim2SF x) (Prim2SF y)) as [[| |]|];
    intros H; try discriminate; reflexivity.
Qed.

Lemma last_any_default {A : Type} (l : list A) (a d d' : A) :
  last (a :: l) d = last (a :: l) d'.
Proof.
  revert a. induction l as [|b l IH]; intros a; [reflexivity|].
  change (last (b :: l) d = last (b :: l) d'). apply IH.
Qed.

Lemma last_cons_default {A : Type} (a d : A) (l : list A) : last (a :: l) d = last l a.
Proof.
  destruct l as [|b l]; [reflexivity|].
  change (last (b :: l) d = last (b :: l) a). apply last_any_default.
Qed.

Section CodecFacts.
Context {br : Browser}.

Lemma reencode_settles (fuel : nat) (maxBytes : float) (bitmap : Bitmap) (w h : float) :
  forall (quality : float) (blob : option Blob) (tr : list CodecEvent),
    settles fuel quality = true ->
    exists r, reencode fuel maxBytes bitmap w h quality blob tr = Some r.
Proof.
  induction fuel as [|fuel IH]; intros quality blob tr Hs; simpl in *.
  - apply negb_true_iff in Hs. rewrite Hs.
    destruct blob; rewrite ?andb_false_r; eexists; reflexivity.
  - destruct (0.35 <? quality)%float eqn:E; simpl in Hs.
    + destruct blob as [b|]; [|eexists; reflexivity].
      destruct (maxBytes <? size b)%float; simpl; [|eexists; reflexivity].
      apply IH. exact Hs.
    + destruct blob; rewrite ?andb_false_r; eexists; reflexivity.
Qed.

(** The loop only ever encodes along the schedule. *)
Lemma reencode_events (fuel : nat) (maxBytes : float) (bitmap : Bitmap) (w h : float) :
  forall (quality : float) (blob : option Blob) (tr : list CodecEvent) r,
    reencode fuel maxBytes bitmap w h quality blob tr = Some r ->
    exists n, events r = tr ++ List.map (Encode w h) (firstn n (descent fuel quality)).
Proof.
  induction fuel as [|fuel IH]; intros quality blob tr r; simpl.
  - destruct (match blob with Some b => _ | None => false end); [discriminate|].
    intros H; injection H as <-. exists 0%nat. simpl. rewrite app_nil_r. reflexivity.
  - destruct (match blob with Some b => _ | None => false end) eqn:C.
    + assert (E : (0.35 <? quality)%float = true).
      { destruct blob; [|discriminate]. apply andb_true_iff in C. apply C. }
      rewrite E. intros H. destruct (IH _ _ _ _ H) as [n Hn].
      exists (S n). rewrite Hn, <- app_assoc. reflexivity.
    + intros H; injection H as <-. exists 0%nat. simpl. rewrite app_nil_r. reflexivity.
Qed.

(** When every blob encoded at a quality of at least 0.35 is over budget,
    the loop walks the whole schedule and ends with the blob of its last
    quality. *)
Lemma reencode_oversize (fuel : nat) (maxBytes : float) (bitmap : Bitmap) (w h : float) :
  (forall q, (0.35 <=? q)%float = true ->
             exists b, toBlob bitmap w h q = Some b /\ (maxBytes <? size b)%float = true) ->
  forall (quality : float) (tr : list CodecEvent),
    settles fuel quality = true ->
    reencode fuel maxBytes bitmap w h quality (toBlob bitmap w h quality) tr
    = Some (mkRun (toBlob bitmap w h (last (descent fuel quality) quality))
                  (tr ++ List.map (Encode w h) (descent fuel quality))).
Proof.
  intros Hover. induction fuel as [|fuel IH]; intros quality tr Hs; simpl in *.
  - apply negb_true_iff in Hs. rewrite Hs, app_nil_r.
    destruct (toBlob bitmap w h quality); rewrite ?andb_false_r; reflexivity.
  - destruct (0.35 <? quality)%float eqn:E; simpl in Hs.
    + destruct (Hover quality (float_ltb_leb E)) as [b [Hb Hsize]].
      rewrite Hb, Hsize. simpl andb. cbv iota.
      rewrite (IH _ _ Hs), <- app_assoc.
      rewrite last_cons_default. reflexivity.
    + simpl. rewrite app_nil_r.
      destruct (toBlob bitmap w h quality); rewrite ?andb_false_r; reflexivity.
Qed.
End CodecFacts.

Lemma settles_from_092 : settles loopFuel 0.92 = true.
Proof. vm_compute. reflexivity. Qed.

Lemma settles_from_09 : settles loopFuel 0.9 = true.
Proof. vm_compute. reflexivity. Qed.

Lemma qualities_encodes (w h : float) (qs : list float) :
  qualities (List.map (Encode w h) qs) = qs.
Proof.
  unfold qualities. induction qs as [|q qs IH]; [reflexivity|].
  simpl. rewrite IH. reflexivity.
Qed.

Lemma qualities_run (w h q0 : float) (qs : list float) :
  qualities ([Decode; Draw w h; Encode w h q0] ++ List.map (Encode w h) qs) = q0 :: qs.
Proof.
  change (q0 :: qualities (List.map (Encode w h) qs) = q0 :: qs).
  rewrite qualities_encodes. reflexivity.
Qed.

Lemma descent_from_092 :
  descent loopFuel 0.92
  = [0.85000000000000009; 0.78000000000000003; 0.70999999999999996;
     0.6399999999999999; 0.56999999999999984; 0.49999999999999983;
     0.42999999999999983; 0.35999999999999982; 0.28999999999999981]%float.
Proof. vm_compute. reflexivity. Qed.

Lemma descent_from_09 :
  descent loopFuel 0.9
  = [0.83000000000000007; 0.76000000000000001; 0.68999999999999995;
     0.61999999999999988; 0.54999999999999982; 0.47999999999999982;
     0.40999999999999981; 0.3399999999999998]%float.
Proof. vm_compute. reflexivity. Qed.

Section CodecTheorems.
Context {br : Browser}.

Lemma compressImage_decoded (file : Blob) (bitmap : Bitmap) (maxBytes maxW : float) :
  createBitmap file = Returns bitmap ->
  let w := fst (fitWidth maxW (width bitmap) (height bitmap)) in
  let h := snd (fitWidth maxW (width bitmap) (height bitmap)) in
  compressImage file maxBytes maxW
  = option_map (orFile file)
      (reencode loopFuel maxBytes bitmap w h 0.92 (toBlob bitmap w h 0.92)
                [Decode; Draw w h; Encode w h 0.92]).
Proof.
  intros Hd. unfold compressImage. rewrite Hd.
  destruct (fitWidth maxW (width bitmap) (height bitmap)) as [w h]. reflexivity.
Qed.

Lemma maybeCompress_decoded (file : Blob) (img : Bitmap) :
  (size file <=? 1.5 * 1024 * 1024)%float = false ->
  loadImageBitmap file = Returns img ->
  let w := fst (fitWidth MAX_W (width img) (height img)) in
  let h := snd (fitWidth MAX_W (width img) (height img)) in
  maybeCompress (Some file)
  = option_map (fun r => mkRun (Returns (result (orFile file r))) (events r))
      (reencode loopFuel MAX_IMAGE_SIZE img w h 0.9 (toBlob img w h 0.9)
                [Decode; Draw w h; Encode w h 0.9]).
Proof.
  intros Hs Hd. unfold maybeCompress. rewrite Hs, Hd.
  destruct (fitWidth MAX_W (width img) (height img)) as [w h]. reflexivity.
Qed.

(** Every run of [compressImage] on a decodable file ends, after one draw
    and encodings along the schedule. *)
Lemma compressImage_run (file : Blob) (bitmap : Bitmap) (maxBytes maxW : float) :
  createBitmap file = Returns bitmap ->
  let w := fst (fitWidth maxW (width bitmap) (height bitmap)) in
  let h := snd (fitWidth maxW (width bitmap) (height bitmap)) in
  exists run n,
    compressImage file maxBytes maxW = Some run
    /\ events run
       = [Decode; Draw w h; Encode w h 0.92]
         ++ List.map (Encode w h) (firstn n (descent loopFuel 0.92)).
Proof.
  intros Hd w h. rewrite (@compressImage_decoded file bitmap maxBytes maxW Hd). fold w h.
  destruct (@reencode_settles br loopFuel maxBytes bitmap w h 0.92%float
              (toBlob bitmap w h 0.92) [Decode; Draw w h; Encode w h 0.92]
              settles_from_092) as [r Hr].
  rewrite Hr. destruct (@reencode_events br _ _ _ _ _ _ _ _ _ Hr) as [n Hn].
  exists (orFile file r), n. split; [reflexivity | exact Hn].
Qed.

Lemma maybeCompress_run (file : Blob) (img : Bitmap) :
  (size file <=? 1.5 * 1024 * 1024)%float = false ->
  loadImageBitmap file = Returns img ->
  let w := fst (fitWidth MAX_W (width img) (height img)) in
  let h := snd (fitWidth MAX_W (width img) (height img)) in
  exists run n,
    maybeCompress (Some file) = Some run
    /\ events run
       = [Decode; Draw w h; Encode w h 0.9]
         ++ List.map (Encode w h) (firstn n (descent loopFuel 0.9)).
Proof.
  intros Hs Hd w h. rewrite (@maybeCompress_decoded file img Hs Hd). fold w h.
  destruct (@reencode_settles br loopFuel MAX_IMAGE_SIZE img w h 0.9%float
              (toBlob img w h 0.9) [Decode; Draw w h; Encode w h 0.9]
              settles_from_09) as [r Hr].
  rewrite Hr. destruct (@reencode_events br _ _ _ _ _ _ _ _ _ Hr) as [n Hn].
  eexists _, n. split; [reflexivity | exact Hn].
Qed.

Lemma compressImage_total (file : Blob) (maxBytes maxW : float) :
  exists run, compressImage file maxBytes maxW = Some run.
Proof.
  destruct (createBitmap file) as [bitmap|e] eqn:Hd.
  - destruct (@compressImage_run file bitmap maxBytes maxW Hd) as [run [_ [Hrun _]]].
    exists run. exact Hrun.
  - exists (mkRun file [Decode]). unfold compressImage. rewrite Hd. reflexivity.
Qed.

(** C6 (amended): the loop re-encodes only along the decreasing sequence
    initial quality, minus 0.07, minus 0.14, ... and stops after at most
    ceil((initial - 0.35) / 0.07) re-encodings: nine from 0.92 in
    [compressImage], eight from 0.9 in [maybeCompress]. The last quality of
    the sequence is the first one not above 0.35, which is below 0.35 (about
    0.29, resp. 0.34). When the canvas yields an over-budget blob at every
    quality of at least 0.35, the call walks the whole sequence and returns
    the blob encoded at that last quality (or the file, if that last
    encoding yields no blob). *)
Theorem quality_descends_past_minimum :
  (Z.of_nat (List.length (descent loopFuel 0.92)) = iterationBound 92 35 7
   /\ last (descent loopFuel 0.92) 0.92%float = 0.28999999999999981%float
   /\ Z.of_nat (List.length (descent loopFuel 0.9)) = iterationBound 90 35 7
   /\ last (descent loopFuel 0.9) 0.9%float = 0.3399999999999998%float)
  /\ (forall (file : Blob) (bitmap : Bitmap) (maxBytes maxW : float),
        createBitmap file = Returns bitmap ->
        let w := fst (fitWidth maxW (width bitmap) (height bitmap)) in
        let h := snd (fitWidth maxW (width bitmap) (height bitmap)) in
        (exists run n,
            compressImage file maxBytes maxW = Some run
            /\ qualities (events run)
               = 0.92%float :: firstn n (descent loopFuel 0.92))
        /\ ((forall q, (0.35 <=? q)%float = true ->
                       exists b, toBlob bitmap w h q = Some b
                                 /\ (maxBytes <? size b)%float = true) ->
            exists run,
              compressImage file maxBytes maxW = Some run
              /\ qualities (events run) = 0.92%float :: descent loopFuel 0.92
              /\ result run
                 = match toBlob bitmap w h 0.28999999999999981 with
                   | Some b => b
                   | None => file
                   end))
  /\ (forall (file : Blob) (img : Bitmap),
        (size file <=? 1.5 * 1024 * 1024)%float = false ->
        loadImageBitmap file = Returns img ->
        let w := fst (fitWidth MAX_W (width img) (height img)) in
        let h := snd (fitWidth MAX_W (width img) (height img)) in
        (exists run n,
            maybeCompress (Some file) = Some run
            /\ qualities (events run)
               = 0.9%float :: firstn n (descent loopFuel 0.9))
        /\ ((forall q, (0.35 <=? q)%float = true ->
                       exists b, toBlob img w h q = Some b
                                 /\ (MAX_IMAGE_SIZE <? size b)%float = true) ->
            exists run,
              maybeCompress (Some file) = Some run
              /\ qualities (events run) = 0.9%float :: descent loopFuel 0.9
              /\ result run
                 = Returns match toBlob img w h 0.3399999999999998 with
                           | Some b => b
                           | None => file
                           end)).
Proof.
  split; [|split].
  - rewrite descent_from_092, descent_from_09. repeat split.
  - intros file bitmap maxBytes maxW Hd w h. split.
    + destruct (@compressImage_run file bitmap maxBytes maxW Hd) as [run [n [Hrun Hev]]].
      exists run, n. split; [exact Hrun|]. rewrite Hev. apply qualities_run.
    + intros Hover.
      rewrite (@compressImage_decoded file bitmap maxBytes maxW Hd). fold w h.
      rewrite (@reencode_oversize br loopFuel maxBytes bitmap w h Hover 0.92%float
                 [Decode; Draw w h; Encode w h 0.92] settles_from_092).
      eexists. split; [reflexivity|]. split.
      * apply qualities_run.
      * cbn [result orFile option_map events]. rewrite descent_from_092. reflexivity.
  - intros file img Hs Hd w h. split.
    + destruct (@maybeCompress_run file img Hs Hd) as [run [n [Hrun Hev]]].
      exists run, n. split; [exact Hrun|]. rewrite Hev. apply qualities_run.
    + intros Hover.
      rewrite (@maybeCompress_decoded file img Hs Hd). fold w h.
      rewrite (@reencode_oversize br loopFuel MAX_IMAGE_SIZE img w h Hover 0.9%float
                 [Decode; Draw w h; Encode w h 0.9] settles_from_09).
      eexists. split; [reflexivity|]. split.
      * apply qualities_run.
      * cbn [result orFile option_map events]. rewrite descent_from_09. reflexivity.
Qed.

(** C7 (amended): a bitmap that is not wider than the limit keeps its
    pixel size; for a wider one the width is the limit and the height is
    [Math.round(h * (limit / w))], as evaluated in double arithmetic. Every
    file that is decoded (for [maybeCompress]: every file above 1.5 MiB) is
    drawn exactly once, at that size, and every encoding is of the canvas
    of that size. *)
Theorem resize_once_to_width_limit :
  (forall maxW w h : float,
      (maxW <? w)%float = false -> fitWidth maxW w h = (w, h))
  /\ (forall maxW w h : float,
        (maxW <? w)%float = true ->
        fitWidth maxW w h = (maxW, Math_round (h * (maxW / w))%float))
  /\ (forall (file : Blob) (bitmap : Bitmap) (maxBytes maxW : float),
        createBitmap file = Returns bitmap ->
        let w := fst (fitWidth maxW (width bitmap) (height bitmap)) in
        let h := snd (fitWidth maxW (width bitmap) (height bitmap)) in
        exists run qs,
          compressImage file maxBytes maxW = Some run
          /\ events run = Decode :: Draw w h :: List.map (Encode w h) qs)
  /\ (forall (file : Blob) (img : Bitmap),
        (size file <=? 1.5 * 1024 * 1024)%float = false ->
        loadImageBitmap file = Returns img ->
        let w := fst (fitWidth MAX_W (width img) (height img)) in
        let h := snd (fitWidth MAX_W (width img) (height img)) in
        exists run qs,
          maybeCompress (Some file) = Some run
          /\ events run = Decode :: Draw w h :: List.map (Encode w h) qs).
Proof.
  repeat split.
  - intros maxW w h H. unfold fitWidth. rewrite H. reflexivity.
  - intros maxW w h H. unfold fitWidth. rewrite H. reflexivity.
  - intros file bitmap maxBytes maxW Hd w h.
    destruct (@compressImage_run file bitmap maxBytes maxW Hd) as [run [n [Hrun Hev]]].
    exists run, (0.92%float :: firstn n (descent loopFuel 0.92)).
    split; [exact Hrun | exact Hev].
  - intros file img Hs Hd w h.
    destruct (@maybeCompress_run file img Hs Hd) as [run [n [Hrun Hev]]].
    exists run, (0.9%float :: firstn n (descent loopFuel 0.9)).
    split; [exact Hrun | exact Hev].
Qed.

(** C8 (amended): [compressImage] returns a blob for every file and never
    throws; when decoding fails it returns the file itself. [maybeCompress]
    throws for a missing file, and for a file above 1.5 MiB whose decoding
    fails it rejects with the decoder's error. *)
Theorem decode_failure_falls_back_only_in_compressImage :
  (forall (file : Blob) (maxBytes maxW : float),
      exists run, compressImage file maxBytes maxW = Some run)
  /\ (forall (file : Blob) (maxBytes maxW : float) (e : JsError),
        createBitmap file = Throws e ->
        compressImage file maxBytes maxW = Some (mkRun file [Decode]))
  /\ (forall (file : Blob) (e : JsError),
        (size file <=? 1.5 * 1024 * 1024)%float = false ->
        loadImageBitmap file = Throws e ->
        maybeCompress (Some file) = Some (mkRun (Throws e) [Decode]))
  /\ maybeCompress None = Some (mkRun (Throws (Error "No file to upload")) []).
Proof.
  repeat split.
  - apply compressImage_total.
  - intros file maxBytes maxW e Hd. unfold compressImage. rewrite Hd. reflexivity.
  - intros file e Hs Hd. unfold maybeCompress. rewrite Hs, Hd. reflexivity.
Qed.

(** C10: a file of at most 1.5 MiB is returned by [maybeCompress] as it is,
    without any decoding, drawing or encoding. *)
Theorem small_file_returned_untouched (file : Blob) :
  (size file <=? 1.5 * 1024 * 1024)%float = true ->
  maybeCompress (Some file) = Some (mkRun (Returns file) []).
Proof. intros H. unfold maybeCompress. rewrite H. reflexivity. Qed.
End CodecTheorems.

(** The resize at an exact tie: for a 1696 by 159 bitmap and the limit 1200
    the exact quotient is 112.5, the double product is just below it, and the
    height becomes 112. *)
Lemma fitWidth_tie_1696_159 :
  fitWidth 1200 1696 159 = (1200, 112)%float
  /\ (159 * (1200 / 1696) <? 112.5)%float = true
  /\ (159 * 1200 / 1696)%float = 112.5%float.
Proof. repeat split. Qed.

(** Scenario D of the design notes: a 2400 by 1800 bitmap under the limit
    1200 becomes 1200 by 900. *)
Lemma fitWidth_scenarioD : fitWidth 1200 2400 1800 = (1200, 900)%float.
Proof. reflexivity. Qed.

(** C6, counterexample: with a canvas whose JPEG is 16 MiB at every quality,
    [compressImage] on the 9 MB photo re-encodes nine times and returns the
    blob encoded at quality 0.28999999999999981, which is below 0.35. *)
Lemma returned_blob_encoded_below_minimum :
  match @compressImage exampleBrowser largePhoto MAX_UPLOAD_BYTES MAX_WIDTH with
  | Some run =>
      ex_quality (result run) = Some 0.28999999999999981%float
      /\ (0.28999999999999981 <? 0.35)%float = true
      /\ qualities (events run)
         = [0.92; 0.85000000000000009; 0.78000000000000003; 0.70999999999999996;
            0.6399999999999999; 0.56999999999999984; 0.49999999999999983;
            0.42999999999999983; 0.35999999999999982; 0.28999999999999981]%float
  | None => False
  end.
Proof. vm_compute. repeat split. Qed.

(** C6, witness: the same browser and photo meet the hypothesis. *)
Lemma quality_descends_witness :
  exists run,
    @compressImage exampleBrowser largePhoto MAX_UPLOAD_BYTES MAX_WIDTH = Some run
    /\ qualities (events run) = 0.92%float :: descent loopFuel 0.92
    /\ result run
       = match @toBlob exampleBrowser (2400, 1800)%float
                 (fst (fitWidth MAX_WIDTH 2400 1800)) (snd (fitWidth MAX_WIDTH 2400 1800))
                 0.28999999999999981 with
         | Some b => b
         | None => largePhoto
         end.
Proof.
  apply (proj2 (proj1 (proj2 (@quality_descends_past_minimum exampleBrowser))
                  largePhoto (2400, 1800)%float MAX_UPLOAD_BYTES MAX_WIDTH eq_refl)).
  intros q _. eexists. split; reflexivity.
Defined.

(** C7, counterexample: the 1 MiB photo is 4000 pixels wide, wider than the
    limit 1600 of [maybeCompress], and is returned as it is. *)
Lemma small_wide_photo_keeps_its_width :
  @maybeCompress exampleBrowser (Some smallWidePhoto)
  = Some (mkRun (Returns smallWidePhoto) [])
  /\ ex_pixels smallWidePhoto = Some (4000, 3000)%float
  /\ (MAX_W <? 4000)%float = true.
Proof. repeat split. Qed.

(** C7, witness: the 9 MB photo in [compressImage]. *)
Lemma resize_once_witness :
  exists run qs,
    @compressImage exampleBrowser largePhoto MAX_UPLOAD_BYTES MAX_WIDTH = Some run
    /\ events run
       = Decode :: Draw (fst (fitWidth MAX_WIDTH 2400 1800)) (snd (fitWidth MAX_WIDTH 2400 1800))
         :: List.map (Encode (fst (fitWidth MAX_WIDTH 2400 1800))
                             (snd (fitWidth MAX_WIDTH 2400 1800))) qs.
Proof.
  exact (proj1 (proj2 (proj2 (@resize_once_to_width_limit exampleBrowser)))
           largePhoto (2400, 1800)%float MAX_UPLOAD_BYTES MAX_WIDTH eq_refl).
Defined.

(** C8, counterexample: [maybeCompress] on a 2 MiB file that cannot be
    decoded does not return the file: it rejects with the decoder's error. *)
Lemma maybeCompress_rejects_on_decode_failure :
  @maybeCompress exampleBrowser (Some brokenPhoto)
  = Some (mkRun (Throws (Error "The source image could not be decoded.")) [Decode]).
Proof. reflexivity. Qed.

(** C8, witness: the same file in [compressImage]. *)
Lemma compressImage_falls_back_witness :
  @compressImage exampleBrowser brokenPhoto MAX_UPLOAD_BYTES MAX_WIDTH
  = Some (mkRun brokenPhoto [Decode]).
Proof.
  exact (proj1 (proj2 (@decode_failure_falls_back_only_in_compressImage exampleBrowser))
           brokenPhoto MAX_UPLOAD_BYTES MAX_WIDTH
           (Error "The source image could not be decoded.") eq_refl).
Defined.

(** C10, witness: the 1 MiB photo. *)
Lemma small_file_returned_untouched_witness :
  @maybeCompress exampleBrowser (Some smallWidePhoto)
  = Some (mkRun (Returns smallWidePhoto) []).
Proof. exact (@small_file_returned_untouched exampleBrowser smallWidePhoto eq_refl). Defined.


(** ** Transport and the analyze flows *)

Section FlowTheorems.
Context {rt : JsRuntime} {br : Browser}.

Lemma maybeCompress_total (file : option Blob) :
  exists run, maybeCompress file = Some run.
Proof.
  destruct file as [file|]; [|eexists; reflexivity].
  destruct (size file <=? 1.5 * 1024 * 1024)%float eqn:Hs.
  - exists (mkRun (Returns file) []). unfold maybeCompress. rewrite Hs. reflexivity.
  - destruct (loadImageBitmap file) as [img|e] eqn:Hd.
    + destruct (@maybeCompress_run br file img Hs Hd) as [run [_ [Hrun _]]].
      exists run. exact Hrun.
    + exists (mkRun (Throws e) [Decode]). unfold maybeCompress. rewrite Hs, Hd. reflexivity.
Qed.

(** C4 (amended): when an upload completes with a status outside 200..299,
    [uploadFileWithProgress] (analyze.js) resolves with the parsed body
    whenever [xhr.response] is truthy, and otherwise resolves with what
    [JSON.parse] makes of the response text, rejecting with "Upload failed:
    <status>" only if the text cannot be read or parsed; whereas
    [uploadWithProgress] (script.js) rejects with "Upload failed (status
    <status>)" whatever the body. *)
Theorem non2xx_body_forwarded_only_in_analyze_js
        (status : Z) (response : JsVal) (responseText : option string) :
  is2xx status = false ->
  (ToBoolean response = true ->
   uploadFileWithProgress (XhrLoad status response responseText) = Resolved response)
  /\ (ToBoolean response = false ->
      uploadFileWithProgress (XhrLoad status response responseText)
      = match responseText with
        | Some text =>
            match JSON_parse (if text =? "" then "{}" else text)%string with
            | Some parsed => Resolved parsed
            | None => Rejected (Error ("Upload failed: " ++ string_of_status status)%string)
            end
        | None => Rejected (Error ("Upload failed: " ++ string_of_status status)%string)
        end)
  /\ uploadWithProgress (XhrLoad status response responseText)
     = Rejected (Error ("Upload failed (status " ++ string_of_status status ++ ")")%string).
Proof.
  intros H. unfold uploadFileWithProgress, uploadWithProgress. rewrite H.
  repeat split; intros ->; reflexivity.
Qed.

(** C3 (amended): when the upload fails, neither flow normalizes or
    post-processes any value and neither re-throws to its caller.
    [analyzeImage] (script.js) writes "Analysis failed" with the error's
    message into the results pane and renders nothing; the click handler
    of analyze.js shows "Server error: <message>. Showing sample result."
    and then renders its fixed sample result. A timeout and a network
    error carry the messages "Upload timeout" and "Network error during
    upload". *)
Theorem upload_failure_reported_without_normalizing :
  (forall (file : Blob) (ev : XhrEvent) (err : JsError),
      validateImageFile (Some file) = None ->
      uploadWithProgress ev = Rejected err ->
      exists run,
        maybeCompress (Some file) = Some run
        /\ analyzeImage (Some file) ev
           = Some match result run with
                  | Throws e => [Message (failureText e)]
                  | Returns compressed =>
                      [Compressed (mkRun compressed (events run)); Sent compressed;
                       Message (failureText err)]
                  end)
  /\ (forall (file : Blob) (ev : XhrEvent) (err : JsError),
        uploadFileWithProgress ev = Rejected err ->
        exists run,
          compressImage file MAX_UPLOAD_BYTES MAX_WIDTH = Some run
          /\ analyzeClick (Some file) ev
             = Some [Compressed run; Sent (result run);
                     Message ("Server error: " ++ message err
                              ++ ". Showing sample result.")%string;
                     Rendered mockResult])
  /\ (uploadWithProgress XhrTimeout = Rejected (Error "Upload timeout")
      /\ uploadWithProgress XhrError = Rejected (Error "Network error during upload")
      /\ uploadFileWithProgress XhrTimeout = Rejected (Error "Upload timeout")
      /\ uploadFileWithProgress XhrError = Rejected (Error "Network error during upload")).
Proof.
  split; [|split].
  - intros file ev err Hv Hu.
    destruct (maybeCompress_total (Some file)) as [run Hrun].
    exists run. split; [exact Hrun|].
    unfold analyzeImage. rewrite Hv, Hrun.
    destruct (result run) as [compressed|e]; [|reflexivity].
    rewrite Hu. reflexivity.
  - intros file ev err Hu.
    destruct (@compressImage_total br file MAX_UPLOAD_BYTES MAX_WIDTH) as [run Hrun].
    exists run. split; [exact Hrun|].
    unfold analyzeClick. rewrite Hrun, Hu. reflexivity.
  - repeat split.
Qed.
End FlowTheorems.

(** C4, counterexample: the demo server answers an upload without image with
    status 400 and a JSON error body; [uploadWithProgress] rejects. *)
Lemma uploadWithProgress_rejects_json_error_body :
  uploadWithProgress (XhrLoad 400 errorBody None)
  = Rejected (Error "Upload failed (status 400)")
  /\ ToBoolean errorBody = true.
Proof. split; reflexivity. Qed.

(** C4, witness: the same reply. *)
Lemma non2xx_body_forwarded_witness :
  @uploadFileWithProgress exampleRuntime (XhrLoad 400 errorBody None) = Resolved errorBody.
Proof.
  exact (proj1 (@non2xx_body_forwarded_only_in_analyze_js exampleRuntime 400 errorBody None
                  eq_refl) eq_refl).
Defined.

(** C3, counterexample: in the click handler of analyze.js an upload timeout
    ends with the sample result being rendered. *)
Lemma timeout_renders_sample_result :
  match @analyzeClick exampleRuntime exampleBrowser (Some brokenPhoto) XhrTimeout with
  | Some steps =>
      steps = [@Compressed exampleBrowser (@mkRun (@Blob exampleBrowser) brokenPhoto [Decode]);
               @Sent exampleBrowser brokenPhoto;
               Message "Server error: Upload timeout. Showing sample result.";
               Rendered mockResult]
  | None => False
  end.
Proof. reflexivity. Qed.

(** C3, witness: the 1 MiB photo and a timeout in [analyzeImage]. *)
Lemma upload_failure_reported_witness :
  exists run,
    @maybeCompress exampleBrowser (Some smallWidePhoto) = Some run
    /\ @analyzeImage exampleRuntime exampleBrowser (Some smallWidePhoto) XhrTimeout
       = Some match result run with
              | Throws e => [Message (failureText e)]
              | Returns compressed =>
                  [Compressed (mkRun compressed (events run)); Sent compressed;
                   Message (failureText (Error "Upload timeout"))]
              end.
Proof.
  exact (proj1 (@upload_failure_reported_without_normalizing exampleRuntime exampleBrowser)
           smallWidePhoto XhrTimeout (Error "Upload timeout") eq_refl eq_refl).
Defined.

(** * Further properties *)

(** ** The normalizer, pass after pass *)


Lemma mapM_Forall_out {A B : Type} (f : A -> Outcome B) (P : B -> Prop)
      (l : list A) (l' : list B) :
  (forall a b, f a = Returns b -> P b) -> mapM f l = Returns l' -> Forall P l'.
Proof.
  intros HP Hm. apply mapM_Forall2 in Hm.
  induction Hm as [|a b l l' Hab _ IH]; constructor; [exact (HP a b Hab) | exact IH].
Qed.

Section NormalizerPasses.
Context {rt : JsRuntime}.


Lemma normalizeDetection_shaped (d d' : JsVal) :
  normalizeDetection d = Returns d' -> shaped d'.
Proof.
  intros H. destruct (normalizeDetection_shape _ H) as [label [conf [bbox [-> Hb]]]].
  exists (trim label), conf, bbox.
  split; [reflexivity|]. split; [apply trim_idempotent | exact Hb].
Qed.

Lemma settled_fixed (d : JsVal) : settled d -> normalizeDetection d = Returns d.
Proof.
  intros [label [conf [bbox [-> [Ht [Hne [Hc Hb]]]]]]].
  apply normalizeDetection_fixed; assumption.
Qed.

Lemma trim_item : trim "item" = "item".
Proof. vm_compute. reflexivity. Qed.

(** One more pass over a shaped detection fills an empty label with
    "item" and replaces a falsy confidence by 0. *)
Lemma shaped_settles (d : JsVal) :
  shaped d -> exists d', normalizeDetection d = Returns d' /\ settled d'.
Proof.
  intros [label [conf [bbox [-> [Ht Hb]]]]].
  assert (Hbox : jsOr (jsOr (jsOr bbox JUndefined) JUndefined) JNull = bbox).
  { destruct Hb as [Hb | ->]; [rewrite !(jsOr_left bbox _ Hb) | ]; reflexivity. }
  assert (Hconf : ToBoolean (JNum (ToNumber (jsOr (JNum conf) (JNum 0)))) = true
                  \/ ToNumber (jsOr (JNum conf) (JNum 0)) = 0%float).
  { destruct (ToBoolean (JNum conf)) eqn:E.
    - left. rewrite (jsOr_left _ _ E). exact E.
    - right. rewrite (jsOr_right _ _ E). reflexivity. }
  destruct (string_dec label "") as [-> | Hne].
  - exists (detection "item" (ToNumber (jsOr (JNum conf) (JNum 0))) bbox). split.
    + unfold normalizeDetection, detection. simpl get. simpl isDefined. cbv iota.
      rewrite Hbox.
      change (jsOr (jsOr (jsOr (jsOr (jsOr (jsOr (jsOr (JStr "") JUndefined) JUndefined)
                                              JUndefined) JUndefined)
                              (jsAnd JUndefined JUndefined)) (JStr "item")) (JStr ""))
        with (JStr "item").
      simpl ToString. rewrite trim_item. reflexivity.
    + exists "item", (ToNumber (jsOr (JNum conf) (JNum 0))), bbox.
      split; [reflexivity|]. split; [exact trim_item|]. split; [discriminate|].
      split; [exact Hconf | exact Hb].
  - exists (detection label (ToNumber (jsOr (JNum conf) (JNum 0))) bbox). split.
    + assert (Hl : ToBoolean (JStr label) = true).
      { simpl. apply String.eqb_neq in Hne. rewrite Hne. reflexivity. }
      unfold normalizeDetection, detection. simpl get. simpl isDefined. cbv iota.
      rewrite !(jsOr_left (JStr label) _ Hl). simpl ToString. rewrite Ht, Hbox.
      reflexivity.
    + exists label, (ToNumber (jsOr (JNum conf) (JNum 0))), bbox.
      split; [reflexivity|]. split; [exact Ht|]. split; [exact Hne|].
      split; [exact Hconf | exact Hb].
Qed.

Lemma second_pass (ds : list JsVal) :
  Forall shaped ds ->
  exists ds2, mapM normalizeDetection ds = Returns ds2 /\ Forall settled ds2.
Proof.
  induction 1 as [|d ds Hd _ [ds2 [Hm Hs]]].
  - exists []. split; [reflexivity | constructor].
  - destruct (shaped_settles Hd) as [d' [Hd' Hs']].
    exists (d' :: ds2). split; [|constructor; assumption].
    simpl. rewrite Hd'. simpl. rewrite Hm. reflexivity.
Qed.

(** A result built over settled detections is a fixed point. *)
Lemma settled_result_fixed (raw : JsVal) (ds : list JsVal) :
  Forall settled ds ->
  normalizeResponse (mainPathResult raw ds) = Returns (mainPathResult raw ds).
Proof.
  intros Hs. rewrite normalizeResponse_main by reflexivity.
  change (unwrapEnvelope (mainPathResult raw ds)) with (mainPathResult raw ds).
  change (findDetected (mainPathResult raw ds)) with ds.
  rewrite mapM_fixed.
  - simpl bind. rewrite mainPathResult_fixed. reflexivity.
  - apply Forall_forall. intros d Hd. apply settled_fixed.
    rewrite Forall_forall in Hs. exact (Hs d Hd).
Qed.

(** The results of [normalizeResponse]: the object of the early return, or
    a main-path object over shaped detections. *)
Lemma normalizeResponse_cases (raw out : JsVal) :
  normalizeResponse raw = Returns out ->
  (ToBoolean raw = false
   /\ out = JObj [("success", JBool false); ("detected_objects", JArr []);
                  ("recommendations", JArr []); ("eco_points", JNum 0);
                  ("carbon_saved_kg", JNum 0)])
  \/ (ToBoolean raw = true
      /\ exists ds,
          mapM normalizeDetection (findDetected (unwrapEnvelope raw)) = Returns ds
          /\ Forall shaped ds
          /\ out = mainPathResult (unwrapEnvelope raw) ds).
Proof.
  intros H. destruct (ToBoolean raw) eqn:Ht.
  - right. split; [reflexivity|].
    destruct (normalizeResponse_inv _ Ht H) as [ds [Hm ->]].
    exists ds. split; [exact Hm|]. split; [|reflexivity].
    exact (@mapM_Forall_out _ _ normalizeDetection shaped _ _ normalizeDetection_shaped Hm).
  - left. split; [reflexivity|].
    unfold normalizeResponse in H. rewrite Ht in H. simpl in H. congruence.
Qed.

(** X1: whatever [normalizeResponse] returns can be normalized again
    without an exception, and what the second pass returns is a fixed point:
    a third pass changes nothing. *)
Theorem normalize_stable_after_two_passes (raw out : JsVal) :
  normalizeResponse raw = Returns out ->
  exists out2,
    normalizeResponse out = Returns out2
    /\ normalizeResponse out2 = Returns out2.
Proof.
  intros H. destruct (normalizeResponse_cases _ H) as [[_ ->] | [_ [ds [_ [Hs ->]]]]].
  - eexists. split; [reflexivity|].
    apply (settled_result_fixed _ (Forall_nil settled)).
  - destruct (second_pass Hs) as [ds2 [Hm2 Hs2]].
    exists (mainPathResult (mainPathResult (unwrapEnvelope raw) ds) ds2). split.
    + rewrite normalizeResponse_main by reflexivity.
      change (unwrapEnvelope (mainPathResult (unwrapEnvelope raw) ds))
        with (mainPathResult (unwrapEnvelope raw) ds).
      change (findDetected (mainPathResult (unwrapEnvelope raw) ds)) with ds.
      rewrite Hm2. reflexivity.
    + apply settled_result_fixed. exact Hs2.
Qed.


(** X3: every detection of a normalized result is an object with exactly a
    [name], a [conf] and a [bbox]: the name is a string without white space
    at either end, the confidence is a number, and the box is the upstream
    box or [null]. *)
Theorem normalized_detections_are_shaped (raw out d : JsVal) :
  normalizeResponse raw = Returns out ->
  In d (elements (get out "detected_objects")) ->
  exists label conf bbox,
    d = JObj [("name", JStr label); ("conf", JNum conf); ("bbox", bbox)]
    /\ trim label = label
    /\ (ToBoolean bbox = true \/ bbox = JNull).
Proof.
  intros H Hd. destruct (normalizeResponse_cases _ H) as [[_ ->] | [_ [ds [_ [Hs ->]]]]].
  - destruct Hd.
  - rewrite Forall_forall in Hs. exact (Hs d Hd).
Qed.

(** X4: a normalized result that has a detection has a recommendation. *)
Theorem recommendations_accompany_detections (raw out : JsVal) :
  normalizeResponse raw = Returns out ->
  elements (get out "detected_objects") <> [] ->
  elements (get out "recommendations") <> [].
Proof.
  intros H Hd. destruct (normalizeResponse_cases _ H) as [[_ ->] | [_ [ds [_ [_ ->]]]]].
  - exfalso. apply Hd. reflexivity.
  - rewrite get_main_recommendations. rewrite get_main_detected in Hd. simpl in *.
    unfold fallbackRecs.
    destruct (findRecs (unwrapEnvelope raw)) as [|r recs]; [|discriminate].
    destruct ds as [|d0 ds]; [exfalso; apply Hd; reflexivity | discriminate].
Qed.
End NormalizerPasses.

(** X1, witness: the reply with a blank name. *)
Lemma normalize_stable_witness :
  exists out2,
    @normalizeResponse exampleRuntime
      (@mainPathResult exampleRuntime blankName [detection "" 0 JNull]) = Returns out2
    /\ @normalizeResponse exampleRuntime out2 = Returns out2.
Proof.
  exact (@normalize_stable_after_two_passes exampleRuntime blankName
           (@mainPathResult exampleRuntime blankName [detection "" 0 JNull]) eq_refl).
Defined.


(** X3, witness: the detection of scenario A. *)
Lemma normalized_detections_are_shaped_witness :
  exists label conf bbox,
    detection "bottle" 0.92 JNull
    = JObj [("name", JStr label); ("conf", JNum conf); ("bbox", bbox)]
    /\ trim label = label
    /\ (ToBoolean bbox = true \/ bbox = JNull).
Proof.
  exact (@normalized_detections_are_shaped exampleRuntime scenarioA scenarioA_normalized
           (detection "bottle" 0.92 JNull) eq_refl (or_introl eq_refl)).
Defined.

(** X4, witness: scenario A. *)
Lemma recommendations_accompany_witness :
  elements (get scenarioA_normalized "recommendations") <> [].
Proof.
  apply (@recommendations_accompany_detections exampleRuntime scenarioA);
    [reflexivity | discriminate].
Defined.

(** ** Transport and flows, case by case *)

Lemma jsOr_object_truthy (a : JsVal) (props : list (string * JsVal)) :
  ToBoolean (jsOr a (JObj props)) = true.
Proof. destruct (jsOr_truthy_or_default a (JObj props)) as [H | ->]; [exact H | reflexivity]. Qed.


(** X5: [uploadWithProgress] resolves only when the request loads with a
    status from 200 to 299, and then with a truthy value: the parsed body,
    else the response text, else an empty object. *)
Theorem uploadWithProgress_resolves_truthy_on_2xx (ev : XhrEvent) (v : JsVal) :
  uploadWithProgress ev = Resolved v ->
  ToBoolean v = true
  /\ exists status response responseText,
      ev = XhrLoad status response responseText /\ is2xx status = true.
Proof.
  destruct ev as [status response responseText| | |e]; simpl; try discriminate.
  destruct (is2xx status) eqn:Hs; [|discriminate].
  destruct (ToBoolean response) eqn:Hr.
  - intros H. injection H as <-. split; [exact Hr|].
    eexists _, _, _. split; [reflexivity | exact Hs].
  - destruct responseText as [text|]; [|discriminate].
    intros H. injection H as <-. split; [apply jsOr_object_truthy|].
    eexists _, _, _. split; [reflexivity | exact Hs].
Qed.

(** A settled upload of script.js: every event but a 2xx load with a falsy
    parsed body whose text cannot be read. *)
Lemma uploadWithProgress_pending_iff (ev : XhrEvent) :
  uploadWithProgress ev = Pending
  <-> exists status response,
      ev = XhrLoad status response None
      /\ is2xx status = true /\ ToBoolean response = false.
Proof.
  split.
  - destruct ev as [status response responseText| | |e]; simpl; try discriminate.
    destruct (is2xx status) eqn:Hs; [|discriminate].
    destruct (ToBoolean response) eqn:Hr; [discriminate|].
    destruct responseText as [text|]; [discriminate|].
    intros _. exists status, response. repeat split; assumption.
  - intros [status [response [-> [Hs Hr]]]]. simpl. rewrite Hs, Hr. reflexivity.
Qed.

Section FlowCases.
Context {rt : JsRuntime} {br : Browser}.

(** X6: whatever [analyzeImage] hands to [normalizeResponse] is truthy, so
    the early return for a falsy payload is never taken in this flow: the
    normalized data always has its [filename] and [debug] properties, and it
    is what gets rendered. *)
Theorem analyzeImage_normalizes_truthy_payloads
        (file : option Blob) (ev : XhrEvent) (steps : list Step) (raw data : JsVal) :
  analyzeImage file ev = Some steps ->
  In (Normalized raw data) steps ->
  ToBoolean raw = true
  /\ uploadWithProgress ev = Resolved raw
  /\ normalizeResponse raw = Returns data
  /\ isDefined (get data "filename") = true
  /\ isDefined (get data "debug") = true
  /\ In (Rendered data) steps.
Proof.
  unfold analyzeImage.
  destruct (validateImageFile file) as [msg|].
  { intros H; injection H as <-. intros [Hin | []]. discriminate. }
  destruct (maybeCompress file) as [run|]; [|discriminate].
  destruct (result run) as [compressed|err].
  2: { intros H; injection H as <-. intros [Hin | []]. discriminate. }
  destruct (uploadWithProgress ev) as [response|err|] eqn:Hu.
  - destruct (normalizeResponse response) as [d|err] eqn:Hn.
    + intros H; injection H as <-. simpl.
      intros [Hin | [Hin | [Hin | [Hin | []]]]]; try discriminate.
      injection Hin as <- <-.
      destruct (uploadWithProgress_resolves_truthy_on_2xx _ Hu) as [Ht _].
      destruct (normalizeResponse_inv _ Ht Hn) as [ds [_ ->]].
      split; [exact Ht|]. split; [reflexivity|]. split; [exact Hn|].
      split; [exact (jsOr_defined _ (JStr "") eq_refl)|].
      split; [rewrite get_main_debug; apply jsOr_defined; reflexivity|].
      right. right. right. left. reflexivity.
    + intros H; injection H as <-. simpl.
      intros [Hin | [Hin | [Hin | []]]]; discriminate.
  - intros H; injection H as <-. simpl.
    intros [Hin | [Hin | [Hin | []]]]; discriminate.
  - intros H; injection H as <-. simpl.
    intros [Hin | [Hin | []]]; discriminate.
Qed.


(** X19: [analyzeImage] uploads nothing but what passed validation: when a
    blob is sent, the file of the input element has an allowed type and is
    not larger than [MAX_IMAGE_SIZE], and if it is not larger than 1.5 MiB
    the blob sent is the file itself. *)
Theorem analyzeImage_sends_only_validated_files
        (file : option Blob) (ev : XhrEvent) (steps : list Step) (sent : Blob) :
  analyzeImage file ev = Some steps ->
  In (Sent sent) steps ->
  exists f,
    file = Some f
    /\ In (type f) ALLOWED_TYPES
    /\ (MAX_IMAGE_SIZE <? size f)%float = false
    /\ ((size f <=? 1.5 * 1024 * 1024)%float = true -> sent = f).
Proof.
  intros H Hin.
  assert (Hrun : validateImageFile file = None
                 /\ exists run, maybeCompress file = Some run /\ result run = Returns sent).
  { unfold analyzeImage in H.
    destruct (validateImageFile file) as [validation|].
    { injection H as <-. destruct Hin as [Hin | []]. discriminate. }
    split; [reflexivity|].
    destruct (maybeCompress file) as [run|]; [|discriminate].
    exists run. split; [reflexivity|].
    destruct (result run) as [compressed|err].
    2: { injection H as <-. destruct Hin as [Hin | []]. discriminate. }
    assert (Hdone : In (Sent sent)
                       [Compressed (mkRun compressed (events run)); Sent compressed]).
    { destruct (uploadWithProgress ev) as [response|err|];
        [destruct (normalizeResponse response)| |];
        injection H as <-; simpl in Hin; simpl;
        repeat (destruct Hin as [Hin | Hin];
                [first [discriminate | now left | now (right; left)]|]);
        destruct Hin. }
    destruct Hdone as [Hc | [Hs | []]]; [discriminate|].
    injection Hs as ->. reflexivity. }
  destruct Hrun as [Hvalid [run [Hrun Hres]]].
  destruct file as [f|]; [|discriminate].
  unfold validateImageFile in Hvalid.
  destruct (existsb (String.eqb (type f)) ALLOWED_TYPES) eqn:Htype; [|discriminate].
  simpl in Hvalid.
  destruct (MAX_IMAGE_SIZE <? size f)%float eqn:Hsize; [discriminate|].
  exists f. split; [reflexivity|]. split.
  - apply existsb_exists in Htype. destruct Htype as [t [Ht Heq]].
    apply String.eqb_eq in Heq. rewrite Heq. exact Ht.
  - split; [exact Hsize|]. intros Hsmall.
    unfold maybeCompress in Hrun. rewrite Hsmall in Hrun.
    injection Hrun as <-. simpl in Hres. injection Hres as ->. reflexivity.
Qed.

End FlowCases.

(** X5, witness: a 200 with a parsed body. *)
Lemma uploadWithProgress_resolves_witness :
  ToBoolean scenarioA = true
  /\ exists status response responseText,
      XhrLoad 200 scenarioA None = XhrLoad status response responseText
      /\ is2xx status = true.
Proof.
  exact (@uploadWithProgress_resolves_truthy_on_2xx (XhrLoad 200 scenarioA None) scenarioA
           eq_refl).
Defined.

(** The run of [analyzeImage] on the 1 MiB photo when the server answers
    200 with scenario A. *)
Lemma analyzeImage_scenarioA :
  @analyzeImage exampleRuntime exampleBrowser (Some smallWidePhoto)
                (XhrLoad 200 scenarioA None)
  = Some [@Compressed exampleBrowser (@mkRun (@Blob exampleBrowser) smallWidePhoto []);
          @Sent exampleBrowser smallWidePhoto;
          Normalized scenarioA scenarioA_normalized;
          Rendered scenarioA_normalized].
Proof. reflexivity. Qed.

(** X6, witness: that run. *)
Lemma analyzeImage_normalizes_witness :
  ToBoolean scenarioA = true
  /\ uploadWithProgress (XhrLoad 200 scenarioA None) = Resolved scenarioA
  /\ @normalizeResponse exampleRuntime scenarioA = Returns scenarioA_normalized
  /\ isDefined (get scenarioA_normalized "filename") = true
  /\ isDefined (get scenarioA_normalized "debug") = true
  /\ In (@Rendered exampleBrowser scenarioA_normalized)
        [@Compressed exampleBrowser (@mkRun (@Blob exampleBrowser) smallWidePhoto []);
         @Sent exampleBrowser smallWidePhoto;
         Normalized scenarioA scenarioA_normalized;
         Rendered scenarioA_normalized].
Proof.
  apply (@analyzeImage_normalizes_truthy_payloads exampleRuntime exampleBrowser
           (Some smallWidePhoto) (XhrLoad 200 scenarioA None) _ scenarioA
           scenarioA_normalized analyzeImage_scenarioA).
  right. right. left. reflexivity.
Defined.


(** X19, witness: that run sends the photo itself. *)
Lemma analyzeImage_sends_witness :
  exists f,
    Some smallWidePhoto = Some f
    /\ In (@type exampleBrowser f) ALLOWED_TYPES
    /\ (MAX_IMAGE_SIZE <? @size exampleBrowser f)%float = false
    /\ ((@size exampleBrowser f <=? 1.5 * 1024 * 1024)%float = true -> smallWidePhoto = f).
Proof.
  apply (@analyzeImage_sends_only_validated_files exampleRuntime exampleBrowser
           (Some smallWidePhoto) (XhrLoad 200 scenarioA None) _ smallWidePhoto
           analyzeImage_scenarioA).
  right. left. reflexivity.
Defined.

(** ** The codec, blob by blob *)

Lemma float_ltb_irrefl (x : float) : (x <? x)%float = false.
Proof.
  rewrite FloatAxioms.ltb_spec. unfold SFltb.
  destruct (Prim2SF x) as [s|s| |s m e]; simpl; try reflexivity.
  - destruct s; reflexivity.
  - destruct s; rewrite Z.compare_refl;
      change (Pos.compare_cont Eq m m) with (Pos.compare m m);
      rewrite Pos.compare_refl; reflexivity.
Qed.

(** X11: the canvas is never wider than the limit. *)
Theorem fitWidth_within_limit (maxW w h : float) :
  (maxW <? fst (fitWidth maxW w h))%float = false.
Proof.
  unfold fitWidth. destruct (maxW <? w)%float eqn:E; simpl.
  - apply float_ltb_irrefl.
  - exact E.
Qed.

Section CodecExit.
Context {br : Browser}.

(** How the loop ends when it starts on the blob of its quality: it has
    encoded along some qualities, each step taken past an over-budget blob
    of a quality above 0.35, and it ends with the blob of the last quality,
    which is over budget only if that quality is not above 0.35. *)
Lemma reencode_exit (fuel : nat) (maxBytes : float) (bitmap : Bitmap) (w h : float) :
  forall (quality : float) (tr : list CodecEvent) r,
    reencode fuel maxBytes bitmap w h quality (toBlob bitmap w h quality) tr = Some r ->
    exists qs,
      events r = tr ++ List.map (Encode w h) qs
      /\ result r = toBlob bitmap w h (last qs quality)
      /\ (forall b, toBlob bitmap w h (last qs quality) = Some b ->
                    (maxBytes <? size b)%float = false
                    \/ (0.35 <? last qs quality)%float = false)
      /\ Forall (fun q => (0.35 <? q)%float = true
                          /\ exists b, toBlob bitmap w h q = Some b
                                       /\ (maxBytes <? size b)%float = true)
                (removelast (quality :: qs)).
Proof.
  induction fuel as [|fuel IH]; intros quality tr r; simpl.
  - destruct (toBlob bitmap w h quality) as [b0|] eqn:Hb.
    + destruct ((maxBytes <? size b0)%float && (0.35 <? quality)%float) eqn:C;
        [discriminate|].
      intros H; injection H as <-. exists []. simpl. rewrite app_nil_r.
      split; [reflexivity|]. split; [symmetry; exact Hb|]. split; [|constructor].
      intros b Hb'. rewrite Hb in Hb'. injection Hb' as <-.
      apply andb_false_iff. exact C.
    + intros H; injection H as <-. exists []. simpl. rewrite app_nil_r.
      split; [reflexivity|]. split; [symmetry; exact Hb|]. split; [|constructor].
      intros b Hb'. rewrite Hb in Hb'. discriminate.
  - destruct (toBlob bitmap w h quality) as [b0|] eqn:Hb.
    + destruct ((maxBytes <? size b0)%float && (0.35 <? quality)%float) eqn:C.
      * intros H. destruct (IH _ _ _ H) as [qs [Hev [Hres [Hexit Hsteps]]]].
        apply andb_true_iff in C. destruct C as [Hover Hq].
        exists ((quality - 0.07)%float :: qs).
        rewrite last_cons_default.
        split; [rewrite Hev, <- app_assoc; reflexivity|].
        split; [exact Hres|]. split; [exact Hexit|].
        change (removelast (quality :: (quality - 0.07)%float :: qs))
          with (quality :: removelast ((quality - 0.07)%float :: qs)).
        constructor; [|exact Hsteps].
        split; [exact Hq|]. exists b0. split; [exact Hb | exact Hover].
      * intros H; injection H as <-. exists []. simpl. rewrite app_nil_r.
        split; [reflexivity|]. split; [symmetry; exact Hb|]. split; [|constructor].
        intros b Hb'. rewrite Hb in Hb'. injection Hb' as <-.
        apply andb_false_iff. exact C.
    + intros H; injection H as <-. exists []. simpl. rewrite app_nil_r.
      split; [reflexivity|]. split; [symmetry; exact Hb|]. split; [|constructor].
      intros b Hb'. rewrite Hb in Hb'. discriminate.
Qed.

Lemma compressImage_exit (file : Blob) (bitmap : Bitmap) (maxBytes maxW : float)
      (run : Run Blob) :
  createBitmap file = Returns bitmap ->
  compressImage file maxBytes maxW = Some run ->
  let w := fst (fitWidth maxW (width bitmap) (height bitmap)) in
  let h := snd (fitWidth maxW (width bitmap) (height bitmap)) in
  exists qs,
    qualities (events run) = 0.92%float :: qs
    /\ result run = match toBlob bitmap w h (last qs 0.92%float) with
                    | Some b => b
                    | None => file
                    end
    /\ (forall b, toBlob bitmap w h (last qs 0.92%float) = Some b ->
                  (maxBytes <? size b)%float = false
                  \/ (0.35 <? last qs 0.92%float)%float = false)
    /\ Forall (fun q => (0.35 <? q)%float = true
                        /\ exists b, toBlob bitmap w h q = Some b
                                     /\ (maxBytes <? size b)%float = true)
              (removelast (0.92%float :: qs)).
Proof.
  intros Hd Hrun w h. rewrite (@compressImage_decoded br file bitmap maxBytes maxW Hd) in Hrun.
  fold w h in Hrun.
  destruct (reencode loopFuel maxBytes bitmap w h 0.92 (toBlob bitmap w h 0.92)
                     [Decode; Draw w h; Encode w h 0.92]) as [r|] eqn:Hr; [|discriminate].
  injection Hrun as <-.
  destruct (@reencode_exit loopFuel maxBytes bitmap w h _ _ _ Hr)
    as [qs [Hev [Hres [Hexit Hsteps]]]].
  exists qs. split; [|split; [|split]].
  - cbn [orFile events]. rewrite Hev. apply qualities_run.
  - cbn [orFile result]. rewrite Hres. reflexivity.
  - exact Hexit.
  - exact Hsteps.
Qed.

Lemma maybeCompress_exit (file : Blob) (img : Bitmap) (run : Run (Outcome Blob)) :
  (size file <=? 1.5 * 1024 * 1024)%float = false ->
  loadImageBitmap file = Returns img ->
  maybeCompress (Some file) = Some run ->
  let w := fst (fitWidth MAX_W (width img) (height img)) in
  let h := snd (fitWidth MAX_W (width img) (height img)) in
  exists qs,
    qualities (events run) = 0.9%float :: qs
    /\ result run = Returns match toBlob img w h (last qs 0.9%float) with
                            | Some b => b
                            | None => file
                            end
    /\ (forall b, toBlob img w h (last qs 0.9%float) = Some b ->
                  (MAX_IMAGE_SIZE <? size b)%float = false
                  \/ (0.35 <? last qs 0.9%float)%float = false)
    /\ Forall (fun q => (0.35 <? q)%float = true
                        /\ exists b, toBlob img w h q = Some b
                                     /\ (MAX_IMAGE_SIZE <? size b)%float = true)
              (removelast (0.9%float :: qs)).
Proof.
  intros Hs Hd Hrun w h. rewrite (@maybeCompress_decoded br file img Hs Hd) in Hrun.
  fold w h in Hrun.
  destruct (reencode loopFuel MAX_IMAGE_SIZE img w h 0.9 (toBlob img w h 0.9)
                     [Decode; Draw w h; Encode w h 0.9]) as [r|] eqn:Hr; [|discriminate].
  injection Hrun as <-.
  destruct (@reencode_exit loopFuel MAX_IMAGE_SIZE img w h _ _ _ Hr)
    as [qs [Hev [Hres [Hexit Hsteps]]]].
  exists qs. split; [|split; [|split]].
  - cbn [orFile events]. rewrite Hev. apply qualities_run.
  - cbn [orFile result]. rewrite Hres. reflexivity.
  - exact Hexit.
  - exact Hsteps.
Qed.

(** X9: what [compressImage] returns for a decoded file is the blob of the
    last encoding, or the file when that encoding yielded no blob; the blob
    is over the byte budget only if its quality is not above 0.35. The same
    holds for [maybeCompress] on a decoded file above 1.5 MiB, with the
    budget [MAX_IMAGE_SIZE]. *)
Theorem returned_blob_is_last_encoding_within_budget :
  (forall (file : Blob) (bitmap : Bitmap) (maxBytes maxW : float) (run : Run Blob),
      createBitmap file = Returns bitmap ->
      compressImage file maxBytes maxW = Some run ->
      let w := fst (fitWidth maxW (width bitmap) (height bitmap)) in
      let h := snd (fitWidth maxW (width bitmap) (height bitmap)) in
      let q := last (qualities (events run)) 0.92%float in
      (toBlob bitmap w h q = None /\ result run = file)
      \/ (toBlob bitmap w h q = Some (result run)
          /\ ((maxBytes <? size (result run))%float = false
              \/ (0.35 <? q)%float = false)))
  /\ (forall (file : Blob) (img : Bitmap) (run : Run (Outcome Blob)),
        (size file <=? 1.5 * 1024 * 1024)%float = false ->
        loadImageBitmap file = Returns img ->
        maybeCompress (Some file) = Some run ->
        let w := fst (fitWidth MAX_W (width img) (height img)) in
        let h := snd (fitWidth MAX_W (width img) (height img)) in
        let q := last (qualities (events run)) 0.9%float in
        (toBlob img w h q = None /\ result run = Returns file)
        \/ (exists b, toBlob img w h q = Some b /\ result run = Returns b
                      /\ ((MAX_IMAGE_SIZE <? size b)%float = false
                          \/ (0.35 <? q)%float = false))).
Proof.
  split.
  - intros file bitmap maxBytes maxW run Hd Hrun w h q.
    destruct (@compressImage_exit file bitmap maxBytes maxW run Hd Hrun)
      as [qs [Hq [Hres [Hexit _]]]].
    fold w h in Hres, Hexit.
    assert (Hlast : q = last qs 0.92%float).
    { unfold q. rewrite Hq. apply last_cons_default. }
    rewrite Hlast.
    destruct (toBlob bitmap w h (last qs 0.92%float)) as [b|] eqn:Hb.
    + right. rewrite Hres. split; [reflexivity | exact (Hexit b eq_refl)].
    + left. split; [reflexivity | exact Hres].
  - intros file img run Hs Hd Hrun w h q.
    destruct (@maybeCompress_exit file img run Hs Hd Hrun) as [qs [Hq [Hres [Hexit _]]]].
    fold w h in Hres, Hexit.
    assert (Hlast : q = last qs 0.9%float).
    { unfold q. rewrite Hq. apply last_cons_default. }
    rewrite Hlast.
    destruct (toBlob img w h (last qs 0.9%float)) as [b|] eqn:Hb.
    + right. exists b. split; [reflexivity|]. split; [exact Hres | exact (Hexit b eq_refl)].
    + left. split; [reflexivity | exact Hres].
Qed.

(** X10: the quality is lowered only past an over-budget blob: every
    encoding of a run but the last one was at a quality above 0.35 and
    yielded a blob over the byte budget. So a run stops at the first blob
    that fits, and never trades quality away after it. *)
Theorem quality_lowered_only_past_oversize_blobs :
  (forall (file : Blob) (bitmap : Bitmap) (maxBytes maxW : float) (run : Run Blob),
      createBitmap file = Returns bitmap ->
      compressImage file maxBytes maxW = Some run ->
      let w := fst (fitWidth maxW (width bitmap) (height bitmap)) in
      let h := snd (fitWidth maxW (width bitmap) (height bitmap)) in
      Forall (fun q => (0.35 <? q)%float = true
                       /\ exists b, toBlob bitmap w h q = Some b
                                    /\ (maxBytes <? size b)%float = true)
             (removelast (qualities (events run))))
  /\ (forall (file : Blob) (img : Bitmap) (run : Run (Outcome Blob)),
        (size file <=? 1.5 * 1024 * 1024)%float = false ->
        loadImageBitmap file = Returns img ->
        maybeCompress (Some file) = Some run ->
        let w := fst (fitWidth MAX_W (width img) (height img)) in
        let h := snd (fitWidth MAX_W (width img) (height img)) in
        Forall (fun q => (0.35 <? q)%float = true
                         /\ exists b, toBlob img w h q = Some b
                                      /\ (MAX_IMAGE_SIZE <? size b)%float = true)
               (removelast (qualities (events run)))).
Proof.
  split.
  - intros file bitmap maxBytes maxW run Hd Hrun w h.
    destruct (@compressImage_exit file bitmap maxBytes maxW run Hd Hrun)
      as [qs [Hq [_ [_ Hsteps]]]].
    rewrite Hq. exact Hsteps.
  - intros file img run Hs Hd Hrun w h.
    destruct (@maybeCompress_exit file img run Hs Hd Hrun) as [qs [Hq [_ [_ Hsteps]]]].
    rewrite Hq. exact Hsteps.
Qed.
End CodecExit.

Lemma scalingRun_is_the_run :
  @compressImage scalingBrowser largePhoto MAX_UPLOAD_BYTES MAX_WIDTH = Some scalingRun.
Proof. vm_compute. reflexivity. Qed.

(** X9, witness: the run in the scaling browser ends within budget. *)
Lemma returned_blob_witness :
  (@toBlob scalingBrowser (2400, 1800)%float 1200 900 0.70999999999999996 = None
   /\ result scalingRun = largePhoto)
  \/ (@toBlob scalingBrowser (2400, 1800)%float 1200 900 0.70999999999999996
      = Some (result scalingRun)
      /\ ((MAX_UPLOAD_BYTES <? ex_size (result scalingRun))%float = false
          \/ (0.35 <? 0.70999999999999996)%float = false)).
Proof.
  exact (proj1 (@returned_blob_is_last_encoding_within_budget scalingBrowser)
           largePhoto (2400, 1800)%float MAX_UPLOAD_BYTES MAX_WIDTH scalingRun
           eq_refl scalingRun_is_the_run).
Defined.

(** X10, witness: the three encodings before the last were over budget. *)
Lemma quality_lowered_witness :
  Forall (fun q => (0.35 <? q)%float = true
                   /\ exists b, @toBlob scalingBrowser (2400, 1800)%float 1200 900 q = Some b
                                /\ (MAX_UPLOAD_BYTES <? ex_size b)%float = true)
         [0.92; 0.85000000000000009; 0.78000000000000003]%float.
Proof.
  exact (proj1 (@quality_lowered_only_past_oversize_blobs scalingBrowser)
           largePhoto (2400, 1800)%float MAX_UPLOAD_BYTES MAX_WIDTH scalingRun
           eq_refl scalingRun_is_the_run).
Defined.

(** ** Escaping *)

Lemma allChars_app (p : ascii -> bool) (s t : string) :
  allChars p (s ++ t)%string = allChars p s && allChars p t.
Proof.
  induction s as [|c s IH]; simpl; [reflexivity|].
  rewrite IH, andb_assoc. reflexivity.
Qed.

Lemma replaceChars_all (f : ascii -> string) (p : ascii -> bool) (s : string) :
  (forall c, allChars p (f c) = true) -> allChars p (replaceChars f s) = true.
Proof.
  intros Hf. induction s as [|c s IH]; simpl; [reflexivity|].
  rewrite allChars_app, Hf, IH. reflexivity.
Qed.

Lemma string_length_app (s t : string) :
  String.length (s ++ t)%string = (String.length s + String.length t)%nat.
Proof. induction s as [|c s IH]; simpl; [reflexivity | rewrite IH; reflexivity]. Qed.

Lemma escapeEight_no_markup (c : ascii) :
  allChars (fun x => negb (isMarkup x)) (escapeEight c) = true.
Proof.
  unfold escapeEight.
  destruct (Ascii.eqb c "&") eqn:E0; [reflexivity|].
  destruct (Ascii.eqb c "<") eqn:E1; [reflexivity|].
  destruct (Ascii.eqb c ">") eqn:E2; [reflexivity|].
  destruct (Ascii.eqb c dquote) eqn:E3; [reflexivity|].
  destruct (Ascii.eqb c "'") eqn:E4; [reflexivity|].
  destruct (Ascii.eqb c "/") eqn:E5; [reflexivity|].
  destruct (Ascii.eqb c "`") eqn:E6; [reflexivity|].
  destruct (Ascii.eqb c "=") eqn:E7; [reflexivity|].
  simpl. unfold isMarkup. rewrite E1, E2, E3, E4, E5, E6, E7. reflexivity.
Qed.

Lemma escapeThree_no_angle (c : ascii) :
  allChars (fun x => negb (isAngle x)) (escapeThree c) = true.
Proof.
  unfold escapeThree.
  destruct (Ascii.eqb c "&") eqn:E0; [reflexivity|].
  destruct (Ascii.eqb c "<") eqn:E1; [reflexivity|].
  destruct (Ascii.eqb c ">") eqn:E2; [reflexivity|].
  simpl. unfold isAngle. rewrite E1, E2. reflexivity.
Qed.

(** A special character becomes an entity of at least four characters; any
    other character stays. *)
Lemma escapeEight_cases (c : ascii) :
  (isSpecial c = true /\ (4 <= String.length (escapeEight c))%nat)
  \/ (isSpecial c = false /\ escapeEight c = String c EmptyString).
Proof.
  unfold escapeEight, isSpecial, isMarkup.
  destruct (Ascii.eqb c "&") eqn:E0; [left; split; [reflexivity | simpl; lia]|].
  destruct (Ascii.eqb c "<") eqn:E1; [left; split; [reflexivity | simpl; lia]|].
  destruct (Ascii.eqb c ">") eqn:E2; [left; split; [reflexivity | simpl; lia]|].
  destruct (Ascii.eqb c dquote) eqn:E3; [left; split; [reflexivity | simpl; lia]|].
  destruct (Ascii.eqb c "'") eqn:E4; [left; split; [reflexivity | simpl; lia]|].
  destruct (Ascii.eqb c "/") eqn:E5;
    [left; split; [simpl; rewrite ?orb_true_r; reflexivity | simpl; lia]|].
  destruct (Ascii.eqb c "`") eqn:E6;
    [left; split; [simpl; rewrite ?orb_true_r; reflexivity | simpl; lia]|].
  destruct (Ascii.eqb c "=") eqn:E7;
    [left; split; [simpl; rewrite ?orb_true_r; reflexivity | simpl; lia]|].
  right. split; reflexivity.
Qed.

Lemma replaceChars_escapeEight_length (s : string) :
  (String.length s <= String.length (replaceChars escapeEight s))%nat.
Proof.
  induction s as [|c s IH]; simpl; [lia|].
  rewrite string_length_app.
  destruct (escapeEight_cases c) as [[_ H] | [_ ->]]; simpl; lia.
Qed.

Lemma replaceChars_escapeEight_fixed (s : string) :
  replaceChars escapeEight s = s <-> allChars (fun c => negb (isSpecial c)) s = true.
Proof.
  induction s as [|c s IH]; simpl; [split; reflexivity|].
  destruct (escapeEight_cases c) as [[Hc Hlen] | [Hc Hesc]]; rewrite Hc; simpl.
  - split; [|discriminate]. intros H.
    apply (f_equal String.length) in H. rewrite string_length_app in H. simpl in H.
    pose proof (replaceChars_escapeEight_length s). lia.
  - rewrite Hesc. simpl. rewrite <- IH. split.
    + intros H. injection H as H. exact H.
    + intros ->. reflexivity.
Qed.

Section EscapingFacts.
Context {rt : JsRuntime}.

(** X12: whatever value [sanitize] (script.js) or [escapeHtml] (analyze.js)
    is given, its result contains no angle bracket, no double or single
    quote, no backquote, no slash and no equals sign. *)
Theorem sanitize_output_has_no_markup (v : JsVal) :
  allChars (fun c => negb (isMarkup c)) (sanitize v) = true
  /\ allChars (fun c => negb (isMarkup c)) (escapeHtml v) = true.
Proof.
  split.
  - unfold sanitize. destruct v; try reflexivity;
      apply replaceChars_all; exact escapeEight_no_markup.
  - unfold escapeHtml. apply replaceChars_all. exact escapeEight_no_markup.
Qed.

(** X13: [sanitize] and [escapeHtml] return a string unchanged exactly when
    it contains none of the eight characters they replace. *)
Theorem sanitize_fixes_exactly_plain_strings (s : string) :
  (sanitize (JStr s) = s <-> allChars (fun c => negb (isSpecial c)) s = true)
  /\ (escapeHtml (JStr s) = s <-> allChars (fun c => negb (isSpecial c)) s = true).
Proof. split; exact (replaceChars_escapeEight_fixed s). Qed.

(** X14: the result of [sanitizeHtml] contains no angle bracket. *)
Theorem sanitizeHtml_output_has_no_angle_bracket (v : JsVal) :
  allChars (fun c => negb (isAngle c)) (sanitizeHtml v) = true.
Proof.
  unfold sanitizeHtml. destruct v; try reflexivity;
    apply replaceChars_all; exact escapeThree_no_angle.
Qed.
End EscapingFacts.

(** ** Request headers and the stored session *)

Lemma assoc_setBinding_same (k : string) (v : JsVal) (props : list (string * JsVal)) :
  assoc k (setBinding k v props) = v.
Proof.
  induction props as [|[k' v'] props IH]; simpl.
  - rewrite String.eqb_refl. reflexivity.
  - destruct (k =? k')%string eqn:E; simpl.
    + rewrite String.eqb_refl. reflexivity.
    + rewrite E. exact IH.
Qed.

Lemma assoc_setBinding_other (k k' : string) (v : JsVal) (props : list (string * JsVal)) :
  k' <> k -> assoc k' (setBinding k v props) = assoc k' props.
Proof.
  intros Hne. apply String.eqb_neq in Hne.
  induction props as [|[k0 v0] props IH]; simpl.
  - rewrite Hne. reflexivity.
  - destruct (k =? k0)%string eqn:E; simpl.
    + apply String.eqb_eq in E. subst k0. rewrite Hne. reflexivity.
    + destruct (k' =? k0)%string; [reflexivity | exact IH].
Qed.

Section SessionFacts.
Context {rt : JsRuntime}.

(** X15: with a stored token, the headers [getAuthHeaders] builds carry
    [Authorization: Bearer <token>], also over an [Authorization] entry of
    the caller, and every other entry of the caller unchanged; without a
    token they are the caller's entries. *)
Theorem getAuthHeaders_sets_only_authorization
        (authToken : JsVal) (props : list (string * JsVal)) :
  (ToBoolean authToken = true ->
   get (getAuthHeaders authToken (JObj props)) "Authorization"
   = JStr ("Bearer " ++ ToString authToken)%string)
  /\ (forall k, k <> "Authorization" ->
                get (getAuthHeaders authToken (JObj props)) k = get (JObj props) k)
  /\ (ToBoolean authToken = false -> getAuthHeaders authToken (JObj props) = JObj props).
Proof.
  unfold getAuthHeaders. simpl ownProps. repeat split.
  - intros ->. apply assoc_setBinding_same.
  - intros k Hk. destruct (ToBoolean authToken); [|reflexivity].
    apply assoc_setBinding_other. exact Hk.
  - intros ->. reflexivity.
Qed.

(** X16: what [setToken] stores is what [getToken] reads back: the token as
    a string when it is truthy, [null] otherwise; the stored user name is
    not touched. [setUsername] does the same for the user name and leaves
    the token. *)
Theorem stored_token_and_username_round_trip (v : JsVal) (p : AuthPage) :
  getToken (setToken v p) = (if ToBoolean v then JStr (ToString v) else JNull)
  /\ getUsername (setToken v p) = getUsername p
  /\ getUsername (setUsername v p) = (if ToBoolean v then JStr (ToString v) else JNull)
  /\ getToken (setUsername v p) = getToken p.
Proof.
  unfold getToken, getUsername, setToken, setUsername, getItem; simpl.
  destruct (ToBoolean v); repeat split.
Qed.


(** X18: after the logout handler has run, the storage holds neither token
    nor user name, and the next [init] leaves the page a guest page whatever
    the server would answer. *)
Theorem logout_then_init_is_guest (me : JsVal) (p : AuthPage) :
  getToken (logout p) = JNull
  /\ getUsername (logout p) = JNull
  /\ location (logout p) = Some "login.html"%string
  /\ isAuthenticated (init me (logout p)) = false
  /\ getToken (init me (logout p)) = JNull
  /\ getUsername (init me (logout p)) = JNull
  /\ ecowiseToken (init me (logout p)) = JNull
  /\ ecowiseUsername (init me (logout p)) = JNull.
Proof. repeat split. Qed.
End SessionFacts.

(** X17, an instance: a stored token that the server accepts for the user
    "asha". *)
Lemma init_signed_in_example :
  let p' := @init exampleRuntime (JObj [("username", JStr "asha")]) signedInPage in
  isAuthenticated p' = true
  /\ ecowiseUsername p' = JStr "asha"
  /\ welcomeLine p' = "Welcome back, asha"%string
  /\ getUsername p' = JStr "asha".
Proof. repeat split. Qed.
